(** * country-info-service: a shallow embedding of the aggregation layer

    The Go code modelled here is

    - package [utils]: [FetchCountryInfo], [FetchCities], [extractString],
      [extractStringArray], [FetchCountryName], [FetchPopulationData];
    - package [handlers]: [CountryInfoHandler], [PopulationHandler],
      [checkAPIHealth], [StatusHandler].

    Conventions of the embedding.

    - Go's [int] is the 64-bit two's complement integer of the usual build
      targets: a [Z] together with the wrap-around [wrap] applied wherever
      the source computes with [+].
    - A Go [string] is a [string] of bytes.  [strings.ToUpper] depends on
      the Unicode case tables of the Go runtime and is a parameter of the
      model, the field [ToUpper] of the world.
    - A function returning [(T, error)] returns a [result T]; an [error] is
      represented by the text of its [Error()] method, which is all the
      handlers ever look at.  A run-time panic is a third outcome.
    - The calls into [net/http] and [encoding/json] are the boundary of the
      embedding: an [Upstream] gives, for every outbound call, what the
      program observes of it (transport error, status code, decode result).
      Every outbound call is appended to a log, so that "no upstream call is
      made" is a statement about the log.
    - [log.Printf] and [fmt.Println] only write to the process log and are
      left out. *)

From Stdlib Require Import ZArith Lia Bool Ascii String DecimalString SpecFloat.
From stdpp Require Import base option list strings gmap.

Local Open Scope string_scope.
Local Open Scope Z_scope.

Set Warnings "-register-all".

(** ** Go's [int] *)

Module GoInt.

Definition bits : Z := 64.
Definition min_int : Z := - 2 ^ (bits - 1).
Definition max_int : Z := 2 ^ (bits - 1) - 1.

Definition in_range (z : Z) : bool := (min_int <=? z) && (z <=? max_int).

(** Two's complement wrap-around of a mathematical integer. *)
Definition wrap (z : Z) : Z := (z + 2 ^ (bits - 1)) mod 2 ^ bits - 2 ^ (bits - 1).

(** [a + b] on [int]. *)
Definition add (a b : Z) : Z := wrap (a + b).

(** [a / b] on [int], for [b <> 0]: the quotient truncated toward zero. *)
Definition div (a b : Z) : Z := wrap (Z.quot a b).

(** [len(s)] of a slice. *)
Definition len {A} (l : list A) : Z := Z.of_nat (length l).

(** [int(f)] for a [float64]: the value truncated toward zero.  The Go
    specification leaves the result open when the value does not fit; the
    amd64 compiler produces the smallest [int], which is what is written
    here. *)
Definition of_float64 (f : spec_float) : Z :=
  match f with
  | S754_zero _ => 0
  | S754_finite s m e =>
      let magnitude :=
        if 0 <=? e then Z.pos m * 2 ^ e else Z.pos m / 2 ^ (- e) in
      let z := if s then - magnitude else magnitude in
      if in_range z then z else min_int
  | S754_infinity _ | S754_nan => min_int
  end.

End GoInt.

(** ** The pieces of Go's standard library that the service calls *)

(** [strings.HasPrefix(s, prefix)] *)
Fixpoint HasPrefix (s prefix : string) : bool :=
  match prefix, s with
  | EmptyString, _ => true
  | String _ _, EmptyString => false
  | String b prefix', String a s' => Ascii.eqb a b && HasPrefix s' prefix'
  end.

(** [strings.Contains(s, substr)] *)
Fixpoint Contains (s substr : string) : bool :=
  HasPrefix s substr ||
  match s with
  | EmptyString => false
  | String _ s' => Contains s' substr
  end.

(** [s[n:]] for [n <= len(s)] *)
Fixpoint string_drop (n : nat) (s : string) : string :=
  match n, s with
  | O, _ => s
  | S n', String _ s' => string_drop n' s'
  | S _, EmptyString => EmptyString
  end.

(** [strings.TrimPrefix(s, prefix)] *)
Definition TrimPrefix (s prefix : string) : string :=
  if HasPrefix s prefix then string_drop (String.length prefix) s else s.

(** [strings.Split(s, sep)] for a separator of one byte, which is how both
    handlers call it (["/"] and ["-"]).  The result is never empty:
    splitting the empty string gives one empty part. *)
Fixpoint Split (s : string) (sep : ascii) : list string :=
  match s with
  | EmptyString => [EmptyString]
  | String c s' =>
      if Ascii.eqb c sep then EmptyString :: Split s' sep
      else match Split s' sep with
           | part :: parts => String c part :: parts
           | [] => [String c EmptyString]
           end
  end.

Definition byte (c : ascii) : Z := Z.of_N (N_of_ascii c).

Definition is_upper (c : ascii) : bool := (65 <=? byte c) && (byte c <=? 90).
Definition is_lower (c : ascii) : bool := (97 <=? byte c) && (byte c <=? 122).
Definition is_digit (c : ascii) : bool := (48 <=? byte c) && (byte c <=? 57).

(** A string of ASCII bytes only. *)
Fixpoint isASCII (s : string) : bool :=
  match s with
  | EmptyString => true
  | String c s' => (byte c <? 128) && isASCII s'
  end.

(** What [strings.ToUpper(s)] returns for a string of ASCII bytes: the
    letters [a]..[z] are mapped to [A]..[Z], every other byte is kept.  On
    other strings [strings.ToUpper] maps rune by rune with the Unicode case
    tables of the Go runtime; this function does not describe it there (see
    the field [ToUpper] of [Upstream]). *)
Definition upper_byte (c : ascii) : ascii :=
  if is_lower c then ascii_of_N (Z.to_N (byte c - 32)) else c.

Fixpoint ToUpperASCII (s : string) : string :=
  match s with
  | EmptyString => EmptyString
  | String c s' => String (upper_byte c) (ToUpperASCII s')
  end.

(** [regexp.MatchString("^[A-Z]{2}$", s)] *)
Definition MatchISO2 (s : string) : bool :=
  match s with
  | String a (String b EmptyString) => is_upper a && is_upper b
  | _ => false
  end.

(** [strconv.Atoi(s)]: an optional sign, then one or more decimal digits and
    nothing else; the value has to fit an [int].  [None] stands for a
    non-nil error. *)
Fixpoint parse_digits (acc : Z) (s : string) : option Z :=
  match s with
  | EmptyString => Some acc
  | String c s' =>
      if is_digit c then parse_digits (10 * acc + (byte c - 48)) s' else None
  end.

Definition parse_unsigned (s : string) : option Z :=
  match s with
  | EmptyString => None
  | _ => parse_digits 0 s
  end.

Definition Atoi (s : string) : option Z :=
  let signed :=
    match s with
    | String "-" s' => (fun z : Z => - z) <$> parse_unsigned s'
    | String "+" s' => parse_unsigned s'
    | _ => parse_unsigned s
    end in
  z ← signed; if GoInt.in_range z then Some z else None.

(** The verb [%d] of [fmt] applied to an [int]. *)
Definition Itoa (z : Z) : string := NilZero.string_of_int (Z.to_int z).

(** [http.StatusText(code)]; the empty string for a code without a name. *)
Definition StatusText (code : Z) : string :=
  match code with
  | 100 => "Continue"
  | 101 => "Switching Protocols"
  | 102 => "Processing"
  | 103 => "Early Hints"
  | 200 => "OK"
  | 201 => "Created"
  | 202 => "Accepted"
  | 203 => "Non-Authoritative Information"
  | 204 => "No Content"
  | 205 => "Reset Content"
  | 206 => "Partial Content"
  | 207 => "Multi-Status"
  | 208 => "Already Reported"
  | 226 => "IM Used"
  | 300 => "Multiple Choices"
  | 301 => "Moved Permanently"
  | 302 => "Found"
  | 303 => "See Other"
  | 304 => "Not Modified"
  | 305 => "Use Proxy"
  | 307 => "Temporary Redirect"
  | 308 => "Permanent Redirect"
  | 400 => "Bad Request"
  | 401 => "Unauthorized"
  | 402 => "Payment Required"
  | 403 => "Forbidden"
  | 404 => "Not Found"
  | 405 => "Method Not Allowed"
  | 406 => "Not Acceptable"
  | 407 => "Proxy Authentication Required"
  | 408 => "Request Timeout"
  | 409 => "Conflict"
  | 410 => "Gone"
  | 411 => "Length Required"
  | 412 => "Precondition Failed"
  | 413 => "Request Entity Too Large"
  | 414 => "Request URI Too Long"
  | 415 => "Unsupported Media Type"
  | 416 => "Requested Range Not Satisfiable"
  | 417 => "Expectation Failed"
  | 418 => "I'm a teapot"
  | 421 => "Misdirected Request"
  | 422 => "Unprocessable Entity"
  | 423 => "Locked"
  | 424 => "Failed Dependency"
  | 425 => "Too Early"
  | 426 => "Upgrade Required"
  | 428 => "Precondition Required"
  | 429 => "Too Many Requests"
  | 431 => "Request Header Fields Too Large"
  | 451 => "Unavailable For Legal Reasons"
  | 500 => "Internal Server Error"
  | 501 => "Not Implemented"
  | 502 => "Bad Gateway"
  | 503 => "Service Unavailable"
  | 504 => "Gateway Timeout"
  | 505 => "HTTP Version Not Supported"
  | 506 => "Variant Also Negotiates"
  | 507 => "Insufficient Storage"
  | 508 => "Loop Detected"
  | 510 => "Not Extended"
  | 511 => "Network Authentication Required"
  | _ => ""
  end.

Definition StatusOK : Z := 200.
Definition StatusBadRequest : Z := 400.
Definition StatusNotFound : Z := 404.
Definition StatusInternalServerError : Z := 500.
Definition StatusBadGateway : Z := 502.

(** ** The values [encoding/json] stores in an [interface{}] *)

(** A JSON number decoded into an [interface{}] is a [float64]; its IEEE 754
    content is the standard library's [spec_float]. *)
Definition float64 : Type := spec_float.

Inductive value : Type :=
| VNil
| VBool (b : bool)
| VNumber (f : float64)
| VString (s : string)
| VArray (l : list value)
| VObject (m : gmap string value).


(** The type assertion [v.(string)]. *)
Definition as_string (v : value) : option string :=
  match v with VString s => Some s | _ => None end.

(** ** Results, errors and the outside world *)

(** The text of [err.Error()]. *)
Definition error : Type := string.

Inductive result (A : Type) : Type :=
| Ok (a : A)
| Err (e : error)
| Panic.
Arguments Ok {A} a.
Arguments Err {A} e.
Arguments Panic {A}.

(** What the program sees of a response body: [ioutil.ReadAll] may fail,
    [json.Unmarshal] into the target type [T] may fail, or there is a decoded
    [T]. *)
Inductive body (T : Type) : Type :=
| ReadError (err : string)
| DecodeError (err : string)
| Decoded (t : T).
Arguments ReadError {T} err.
Arguments DecodeError {T} err.
Arguments Decoded {T} t.

(** What an outbound request returns: [err != nil] (connection refused,
    timeout, ...) or a response with its status code and body. *)
Inductive http_result (B : Type) : Type :=
| TransportError (err : string)
| Response (StatusCode : Z) (Body : B).
Arguments TransportError {B} err.
Arguments Response {B} StatusCode Body.

(** [CountryInfoResponse] *)
Record CountryInfoResponse : Type := {
  Name : string;
  Continent : string;
  Population : Z;
  Languages : gmap string string;
  Borders : list string;
  Flag : string;
  Capital : string;
  Cities : list string
}.

(** The anonymous struct [{Year int; Value int}] of [PopulationResponse] and
    [ApiResponse]. *)
Record YearValue : Type := { Year : Z; Value : Z }.

(** [PopulationResponse]; a nil [Values] slice is the empty list. *)
Record PopulationResponse : Type := { Mean : Z; Values : list YearValue }.

(** [ApiResponse]; [PopulationCounts] is [None] for a nil slice (field
    absent or null) and [Some l] for a decoded array, possibly empty. *)
Record ApiResponseData : Type := {
  Country : string;
  Code : string;
  Iso3 : string;
  PopulationCounts : option (list YearValue)
}.

Record ApiResponse : Type := {
  Error : bool;
  Msg : string;
  Data : ApiResponseData
}.

(** [CountryNameResponse]: a slice of [{Name {Common string}}]. *)
Record CountryNameEntry : Type := { Common : string }.
Definition CountryNameResponse : Type := list CountryNameEntry.

(** The anonymous [apiResponse] struct of [FetchCities]. *)
Record CitiesApiResponse : Type := {
  CitiesError : bool;
  CitiesData : list string
}.

(** [APIStatus] *)
Record APIStatus : Type := {
  CountriesNowAPI : string;
  RestCountriesAPI : string;
  Version : string;
  Uptime : Z
}.

(** The outside world.  The two [alpha] fields answer the same GET request;
    they differ in the Go type the body is decoded into.  A JSON [null] in
    place of a country object decodes to a nil map, which reads like the
    empty map.  [ToUpper] is [strings.ToUpper]: its Unicode case tables are
    part of the Go runtime and not of this repository, so the function is a
    parameter of the model; where a property depends on it, the property
    assumes [upperOnASCII], which holds of [strings.ToUpper]. *)
Record Upstream : Type := {
  (** [strings.ToUpper] *)
  ToUpper : string -> string;
  (** [GET url], body decoded as [[]map[string]interface{}] *)
  alpha_generic : string -> http_result (body (list (gmap string value)));
  (** [GET url], body decoded as [CountryNameResponse] *)
  alpha_name : string -> http_result (body CountryNameResponse);
  (** [POST .../countries/cities] for a country name *)
  cities_api : string -> http_result (body CitiesApiResponse);
  (** [POST .../countries/population] for a country name *)
  population_api : string -> http_result (body ApiResponse);
  (** [client.Get(url)] of the health probe, where only the status is read *)
  health_api : string -> http_result unit;
  (** [time.Now().Year()] *)
  current_year : Z;
  (** [int(time.Since(startTime).Seconds())] *)
  uptime_seconds : Z
}.

Inductive Call : Type :=
| GET (url : string)
| POST (url : string) (country : string).

(** Computations that read the world and extend the log of outbound calls. *)
Definition IO (A : Type) : Type := Upstream -> list Call -> A * list Call.

#[global] Instance IO_ret : MRet IO := fun A a _ calls => (a, calls).
#[global] Instance IO_bind : MBind IO :=
  fun A B f m w calls => let '(a, calls') := m w calls in f a w calls'.

Definition call {A} (c : Call) (answer : Upstream -> A) : IO A :=
  fun w calls => (answer w, (calls ++ [c])%list).

Definition ask {A} (f : Upstream -> A) : IO A :=
  fun w calls => (f w, calls).

(** Running a handler on a fresh log. *)
Definition run {A} (m : IO A) (w : Upstream) : A * list Call := m w [].

(** ** The upstream gateway: country information and cities *)

Definition restCountriesAlpha (code : string) : string :=
  "http://129.241.150.113:8080/v3.1/alpha/" +:+ code.
Definition citiesURL : string :=
  "http://129.241.150.113:3500/api/v0.1/countries/cities".
Definition populationAPI : string :=
  "http://129.241.150.113:3500/api/v0.1/countries/population".

Definition cityPlaceholder : list string := ["City data not available"].

(** [s[:n]] on a slice with [n <= len(s)]; a negative bound panics. *)
Definition slice_to {A} (s : list A) (n : Z) : result (list A) :=
  if n <? 0 then Panic else Ok (take (Z.to_nat n) s).

(** [FetchCities].  [http.NewRequest] cannot fail on the constant method and
    URL, so that branch is left out. *)
Definition FetchCities (countryName : string) (limit : Z) : IO (result (list string)) :=
  resp ← call (POST citiesURL countryName) (fun w => cities_api w countryName);
  mret
    match resp with
    | TransportError err => Err ("failed to fetch cities: " +:+ err)
    | Response StatusCode Body =>
        if negb (StatusCode =? StatusOK)
        then Err ("cities API returned status " +:+ Itoa StatusCode)
        else
          match Body with
          | ReadError err => Err ("failed to read response: " +:+ err)
          | DecodeError err => Err ("failed to parse cities API response: " +:+ err)
          | Decoded apiResponse =>
              if CitiesError apiResponse
              then Err ("error fetching cities for country: " +:+ countryName)
              else if GoInt.len (CitiesData apiResponse) >? limit
                   then slice_to (CitiesData apiResponse) limit
                   else Ok (CitiesData apiResponse)
          end
    end.

(** The inner loop of [extractString]: the first of [keys] under which
    [nestedMap] holds a string. *)
Fixpoint extractNested (nestedMap : gmap string value) (keys : list string) : option string :=
  match keys with
  | [] => None
  | nestedKey :: keys' =>
      match nestedMap !! nestedKey ≫= as_string with
      | Some strValue => Some strValue
      | None => extractNested nestedMap keys'
      end
  end.

(** The outer loop of [extractString], over the keys still to visit; the
    inner loop always ranges over all of [keys]. *)
Fixpoint extractStringFrom (data : gmap string value) (keys rest : list string) : option string :=
  match rest with
  | [] => None
  | key :: rest' =>
      match data !! key with
      | Some (VObject nestedMap) =>
          match extractNested nestedMap keys with
          | Some strValue => Some strValue
          | None => extractStringFrom data keys rest'
          end
      | Some (VString strValue) => Some strValue
      | _ => extractStringFrom data keys rest'
      end
  end.

(** [extractString(data, keys...)]; [None] is the pair [("", false)]. *)
Definition extractString (data : gmap string value) (keys : list string) : option string :=
  extractStringFrom data keys keys.

(** [extractStringArray(data, key)] *)
Definition extractStringArray (data : gmap string value) (key : string) : list string :=
  match data !! key with
  | Some (VArray arr) => omap as_string arr
  | _ => []
  end.

(** The blocks "Extract region", "Extract languages", "Extract capital city"
    and "Extract population" of [FetchCountryInfo]. *)
Definition extractRegion (country : gmap string value) : string :=
  match country !! "region" with
  | Some (VString region) => region
  | _ => "Unknown"
  end.

Definition extractLanguages (country : gmap string value) : gmap string string :=
  match country !! "languages" with
  | Some (VObject langs) => omap as_string langs
  | _ => ∅
  end.

Definition extractCapital (country : gmap string value) : string :=
  match country !! "capital" with
  | Some (VArray (VString capStr :: _)) => capStr
  | _ => "N/A"
  end.

Definition extractPopulation (country : gmap string value) : Z :=
  match country !! "population" with
  | Some (VNumber pop) => GoInt.of_float64 pop
  | _ => 0
  end.

(** [FetchCountryInfo] *)
Definition FetchCountryInfo (countryCode : string) (limit : Z) : IO (result CountryInfoResponse) :=
  let url := restCountriesAlpha countryCode in
  resp ← call (GET url) (fun w => alpha_generic w url);
  match resp with
  | TransportError err => mret (Err ("failed to fetch country data: " +:+ err))
  | Response StatusCode Body =>
      if negb (StatusCode =? StatusOK)
      then mret (Err ("API returned status " +:+ Itoa StatusCode))
      else
        match Body with
        | ReadError err | DecodeError err =>
            mret (Err ("failed to decode country API response: " +:+ err))
        | Decoded [] =>
            mret (Err ("no data found for country code: " +:+ countryCode))
        | Decoded (country :: _) =>
            match extractString country ["name"; "common"] with
            | None => mret (Err "country name not found")
            | Some name =>
                let region := extractRegion country in
                let borders := extractStringArray country "borders" in
                let languages := extractLanguages country in
                let flag := default "" (extractString country ["flags"; "svg"]) in
                let capital := extractCapital country in
                let population := extractPopulation country in
                fetched ← FetchCities name limit;
                let response cities :=
                  {| Name := name;
                     Continent := region;
                     Population := population;
                     Languages := languages;
                     Borders := borders;
                     Flag := flag;
                     Capital := capital;
                     Cities := cities |} in
                mret
                  match fetched with
                  | Ok cities => Ok (response cities)
                  | Err _ => Ok (response cityPlaceholder)
                  | Panic => Panic
                  end
            end
        end
  end.

(** ** The upstream gateway: country name and population *)

(** [FetchCountryName] *)
Definition FetchCountryName (iso2 : string) : IO (result string) :=
  let url := restCountriesAlpha iso2 in
  resp ← call (GET url) (fun w => alpha_name w url);
  mret
    match resp with
    | TransportError err => Err ("failed to fetch country name: " +:+ err)
    | Response StatusCode Body =>
        if negb (StatusCode =? StatusOK)
        then Err ("country API returned status " +:+ Itoa StatusCode)
        else
          match Body with
          | ReadError err => Err ("failed to read country API response: " +:+ err)
          | DecodeError err => Err ("failed to decode country API response: " +:+ err)
          | Decoded countryData =>
              match countryData with
              | entry :: _ =>
                  if String.eqb (Common entry) ""
                  then Err ("invalid country name received for ISO2 code: " +:+ iso2)
                  else Ok (Common entry)
              | [] => Err ("invalid country name received for ISO2 code: " +:+ iso2)
              end
          end
    end.

(** The state of the filtering loop of [FetchPopulationData]:
    [filteredCounts], [total] and [count]. *)
Definition filterState : Type := list YearValue * Z * Z.

(** One iteration of [for _, entry := range populationData]. *)
Definition filterStep (startYear endYear : Z) (st : filterState) (entry : YearValue) : filterState :=
  let '(filteredCounts, total, count) := st in
  if ((startYear =? 0) || (Year entry >=? startYear)) &&
     ((endYear =? 0) || (Year entry <=? endYear))
  then ((filteredCounts ++ [entry])%list,
        GoInt.add total (Value entry),
        GoInt.add count 1)
  else st.

Definition filterLoop (startYear endYear : Z) (populationData : list YearValue) : filterState :=
  fold_left (filterStep startYear endYear) populationData ([], 0, 0).

(** [FetchPopulationData].  [json.Marshal] of a struct with one string field
    cannot fail, so that branch is left out. *)
Definition FetchPopulationData (iso2 : string) (startYear endYear : Z) : IO (result PopulationResponse) :=
  if (startYear >? endYear) && negb (endYear =? 0)
  then mret (Err ("invalid year range: startYear (" +:+ Itoa startYear +:+
                  ") cannot be greater than endYear (" +:+ Itoa endYear +:+ ")"))
  else
    named ← FetchCountryName iso2;
    match named with
    | Panic => mret Panic
    | Err err => mret (Err ("failed to get country name: " +:+ err))
    | Ok countryName =>
        resp ← call (POST populationAPI countryName) (fun w => population_api w countryName);
        mret
          match resp with
          | TransportError err => Err ("failed to send request: " +:+ err)
          | Response StatusCode Body =>
              if negb (StatusCode =? StatusOK)
              then Err ("population API returned status " +:+ Itoa StatusCode)
              else
                match Body with
                | ReadError err => Err ("failed to read Population API response: " +:+ err)
                | DecodeError err => Err ("failed to decode Population API response: " +:+ err)
                | Decoded apiResponse =>
                    if Error apiResponse
                    then Err ("population API returned an error: " +:+ Msg apiResponse)
                    else
                      match PopulationCounts (Data apiResponse) with
                      | None => Err ("no population data found for country: " +:+ countryName)
                      | Some populationData =>
                          let '(filteredCounts, total, count) :=
                            filterLoop startYear endYear populationData in
                          let mean := if count >? 0 then GoInt.div total count else 0 in
                          Ok {| Mean := mean; Values := filteredCounts |}
                      end
                end
          end
    end.

(** ** The handlers *)

(** What a handler reads of the request: [r.URL.Path] and
    [r.URL.Query().Get("limit")], which is empty when the parameter is
    absent. *)
Record Request : Type := { Path : string; QueryLimit : string }.

(** What a handler writes: [http.Error(w, msg, code)], a JSON document with
    the implicit status 200, or nothing when the handler panics and the
    server drops the connection. *)
Inductive reply (A : Type) : Type :=
| ReplyError (code : Z) (msg : string)
| ReplyJSON (a : A)
| ReplyPanic.
Arguments ReplyError {A} code msg.
Arguments ReplyJSON {A} a.
Arguments ReplyPanic {A}.

Definition status {A} (r : reply A) : option Z :=
  match r with
  | ReplyError code _ => Some code
  | ReplyJSON _ => Some StatusOK
  | ReplyPanic => None
  end.

(** *** The country information endpoint *)

(** "Extract country code from URL path" and "Check if country code is ISO2
    format": the validated code, or the reply that rejects the request.
    [upper] is [strings.ToUpper]. *)
Definition infoCountryCode (upper : string -> string) (path : string) : reply CountryInfoResponse + string :=
  let parts := Split path "/" in
  if GoInt.len parts <? 5
  then inl (ReplyError StatusBadRequest
              "missing country code. Example: /countryinfo/v1/info/no")
  else
    let countryCode := upper (nth 4 parts "") in
    if negb (MatchISO2 countryCode)
    then inl (ReplyError StatusBadRequest
                "invalid country code. Use a valid ISO2 format (e.g., 'NO', 'US')")
    else inr countryCode.

(** "Extract the limit query parameter, defaulting to 10 if not provided";
    [None] when the handler answers 400. *)
Definition infoLimit (queryLimit : string) : option Z :=
  if String.eqb queryLimit "" then Some 10
  else
    match Atoi queryLimit with
    | None => None
    | Some parsedLimit => if parsedLimit <=? 0 then None else Some parsedLimit
    end.

(** "Differentiate error types", shared by both handlers up to the texts. *)
Definition classify {A} (err : error) (notFound badGateway internal : string) : reply A :=
  if Contains err "not found" then ReplyError StatusNotFound notFound
  else if Contains err "API request failed" then ReplyError StatusBadGateway badGateway
  else ReplyError StatusInternalServerError internal.

(** [CountryInfoHandler] *)
Definition CountryInfoHandler (r : Request) : IO (reply CountryInfoResponse) :=
  upper ← ask ToUpper;
  match infoCountryCode upper (Path r) with
  | inl rejected => mret rejected
  | inr countryCode =>
      match infoLimit (QueryLimit r) with
      | None =>
          mret (ReplyError StatusBadRequest
                  "invalid 'limit' parameter. Must be a positive integer.")
      | Some limit =>
          fetched ← FetchCountryInfo countryCode limit;
          mret
            match fetched with
            | Ok info => ReplyJSON info
            | Err err =>
                classify err
                  "country not found in the database."
                  "failed to retrieve data from the external API."
                  "internal server error while fetching data."
            | Panic => ReplyPanic
            end
      end
  end.

(** *** The population endpoint *)

(** "Gets country code and validate it" and "Check if the country code is in
    ISO2 format". *)
Definition populationCountryCode (upper : string -> string) (path : string) : reply PopulationResponse + string :=
  let parts := Split (TrimPrefix path "/countryinfo/v1/population/") "/" in
  if (GoInt.len parts <? 1) || String.eqb (nth 0 parts "") ""
  then inl (ReplyError StatusBadRequest
              "Missing country code. Example: /countryinfo/v1/population/NO")
  else
    let countryCode := upper (nth 0 parts "") in
    if negb (MatchISO2 countryCode)
    then inl (ReplyError StatusBadRequest
                "Invalid country code. Use a valid ISO2 format (e.g., 'NO', 'US')")
    else inr countryCode.

(** "Parse optional limit query param (startYear-endYear)": the pair
    [(startYear, endYear)], or the reply that rejects the request. *)
Definition populationYearRange (limitParam : string) (currentYear : Z) : reply PopulationResponse + Z * Z :=
  if String.eqb limitParam "" then inr (0, 0)
  else
    match Split limitParam "-" with
    | [first; second] =>
        match Atoi first, Atoi second with
        | Some startYear, Some endYear =>
            if (startYear <? 1900) || (endYear >? currentYear)
            then inl (ReplyError StatusBadRequest
                        ("Year range out of bounds. Use years between 1900 and "
                         +:+ Itoa currentYear +:+ "."))
            else inr (startYear, endYear)
        | _, _ =>
            inl (ReplyError StatusBadRequest
                   "Invalid 'limit' format. Use 'startYear-endYear' with numeric values (e.g., '2000-2020').")
        end
    | _ =>
        inl (ReplyError StatusBadRequest
               "Invalid 'limit' format. Use 'startYear-endYear'.")
    end.

(** [PopulationHandler].  [time.Now().Year()] is only read when the limit
    parameter has two numeric parts; reading it earlier changes nothing. *)
Definition PopulationHandler (r : Request) : IO (reply PopulationResponse) :=
  upper ← ask ToUpper;
  match populationCountryCode upper (Path r) with
  | inl rejected => mret rejected
  | inr countryCode =>
      currentYear ← ask current_year;
      match populationYearRange (QueryLimit r) currentYear with
      | inl rejected => mret rejected
      | inr (startYear, endYear) =>
          fetched ← FetchPopulationData countryCode startYear endYear;
          mret
            match fetched with
            | Ok data => ReplyJSON data
            | Err err =>
                classify err
                  "Population data not found for the given country or year range."
                  "Failed to retrieve data from the external API."
                  "Internal server error while fetching population data."
            | Panic => ReplyPanic
            end
      end
  end.

(** *** The status endpoint *)

(** [checkAPIHealth]; a timeout of the 3-second client is one of the
    transport errors. *)
Definition checkAPIHealth (url : string) : IO string :=
  resp ← call (GET url) (fun w => health_api w url);
  mret
    match resp with
    | TransportError _ => "FAILED"
    | Response StatusCode _ =>
        if negb (StatusCode =? StatusOK)
        then "ERROR " +:+ StatusText StatusCode
        else "200"
    end.

(** [StatusHandler] *)
Definition StatusHandler (r : Request) : IO (reply APIStatus) :=
  uptime ← ask uptime_seconds;
  countriesNowStatus ← checkAPIHealth "http://129.241.150.113:3500/api/v0.1/countries";
  restCountriesStatus ← checkAPIHealth "http://129.241.150.113:8080/v3.1/all";
  mret (ReplyJSON {| CountriesNowAPI := countriesNowStatus;
                     RestCountriesAPI := restCountriesStatus;
                     Version := "v1";
                     Uptime := uptime |}).

(** * Vocabulary of the properties *)

(** ** The population window *)

(** Membership of a record in the window, 0 standing for "no bound". *)
Definition inWindow (startYear endYear : Z) (entry : YearValue) : bool :=
  ((startYear =? 0) || (startYear <=? Year entry)) &&
  ((endYear =? 0) || (Year entry <=? endYear)).

(** The mathematical sum of the values. *)
Definition sumValues (l : list YearValue) : Z :=
  foldr (fun entry acc => Value entry + acc) 0 l.

(** The loop invariant: after any number of iterations the state is the
    filtered prefix, its wrapped sum and its wrapped length. *)
Definition stateOf (kept : list YearValue) : filterState :=
  (kept, GoInt.wrap (sumValues kept), GoInt.wrap (GoInt.len kept)).

(** ** Substrings *)

(** [u] and [pat] differ at a position that both have. *)
Fixpoint clash (u pat : string) : bool :=
  match u, pat with
  | String a u', String b pat' => if Ascii.eqb a b then clash u' pat' else true
  | _, _ => false
  end.

(** No occurrence of [pat] can start inside [u], whatever follows [u]. *)
Fixpoint sealed (u pat : string) : bool :=
  match u with
  | EmptyString => true
  | String _ u' => clash u pat && sealed u' pat
  end.

(** Every byte of [s] satisfies [P]. *)
Fixpoint string_forall (P : ascii -> bool) (s : string) : bool :=
  match s with
  | EmptyString => true
  | String c s' => P c && string_forall P s'
  end.

(** The characters [%d] can print. *)
Definition numeric (c : ascii) : bool := is_digit c || Ascii.eqb c "-".

(** ** Error texts *)

(** The two substrings the handlers look for. *)
Definition notFound : string := "not found".
Definition apiRequestFailed : string := "API request failed".

(** The message of the range check of [FetchPopulationData]. *)
Definition invalidYearRange (startYear endYear : Z) : error :=
  "invalid year range: startYear (" +:+ Itoa startYear +:+
  ") cannot be greater than endYear (" +:+ Itoa endYear +:+ ")".

(** A text without the substring the 502 branch looks for. *)
Definition clean (s : string) : Prop := Contains s apiRequestFailed = false.

(** The texts of an outbound call that can end up inside an error message:
    the text of a transport, read or decode error, and the parts of a decoded
    document listed by [payload]. *)
Definition bodyTexts {T} (payload : T -> list string) (b : body T) : list string :=
  match b with
  | ReadError err | DecodeError err => [err]
  | Decoded t => payload t
  end.

(** The same for the whole outcome of a request. *)
Definition httpTexts {T} (payload : T -> list string) (r : http_result (body T)) : list string :=
  match r with
  | TransportError err => [err]
  | Response _ b => bodyTexts payload b
  end.

(** No text the upstreams supply contains "API request failed": error texts,
    the common name of the first country, the population upstream's [msg]. *)
Definition cleanUpstream (w : Upstream) : Prop :=
  (forall url, Forall clean (httpTexts (fun _ => []) (alpha_generic w url))) /\
  (forall url, Forall clean (httpTexts (fun names => Common <$> take 1 names) (alpha_name w url))) /\
  (forall name, Forall clean (httpTexts (fun _ => []) (cities_api w name))) /\
  (forall name, Forall clean (httpTexts (fun api => [Msg api]) (population_api w name))).

(** The 500 replies of the two handlers. *)
Definition internalInfo : reply CountryInfoResponse :=
  ReplyError StatusInternalServerError "internal server error while fetching data.".
Definition internalPopulation : reply PopulationResponse :=
  ReplyError StatusInternalServerError "Internal server error while fetching population data.".

(** The number of occurrences of the byte [sep] in [s]. *)
Fixpoint count_byte (sep : ascii) (s : string) : nat :=
  match s with
  | EmptyString => 0
  | String c s' => (if Ascii.eqb c sep then 1 else 0) + count_byte sep s'
  end.

(** ** Country records *)

(** The type assertions [v.([]interface{})] and
    [v.(map[string]interface{})]. *)
Definition as_array (v : value) : option (list value) :=
  match v with VArray l => Some l | _ => None end.

Definition as_object (v : value) : option (gmap string value) :=
  match v with VObject m => Some m | _ => None end.

(** The response [FetchCountryInfo] constructs from the first country
    record, its name and a city list. *)
Definition assembled (country : gmap string value) (name : string) (cities : list string) : CountryInfoResponse :=
  {| Name := name;
     Continent := extractRegion country;
     Population := extractPopulation country;
     Languages := extractLanguages country;
     Borders := extractStringArray country "borders";
     Flag := default "" (extractString country ["flags"; "svg"]);
     Capital := extractCapital country;
     Cities := cities |}.

(** "Missing, empty, or its first element is not a string". *)
Definition capitalUnusable (field : option value) : Prop :=
  field ≫= as_array = None
  \/ field = Some (VArray [])
  \/ exists first others, field = Some (VArray (first :: others)) /\ as_string first = None.

(** Neither a string nor an object with a string under [flags] or [svg]. *)
Definition holdsNoString (field : option value) : Prop :=
  match field with
  | Some (VString _) => False
  | Some (VObject nested) =>
      nested !! "flags" ≫= as_string = None /\ nested !! "svg" ≫= as_string = None
  | _ => True
  end.

(** [flags.svg] of a country record. *)
Definition flagsSvg (country : gmap string value) : option value :=
  match country !! "flags" with
  | Some (VObject flags) => flags !! "svg"
  | _ => None
  end.

(** The ways the city fetch can fail: transport error, a status other than
    200, a body that cannot be read or decoded, the upstream's error flag. *)
Definition citiesFetchFails (r : http_result (body CitiesApiResponse)) : Prop :=
  match r with
  | TransportError _ => True
  | Response code b =>
      code <> StatusOK \/
      match b with
      | ReadError _ | DecodeError _ => True
      | Decoded apiResponse => CitiesError apiResponse = true
      end
  end.

(** ** Request validation *)

(** An ASCII letter of either case. *)
Definition is_letter (c : ascii) : bool := is_upper c || is_lower c.

(** What [strings.ToUpper] is known to do without its Unicode tables: on a
    string of ASCII bytes it maps [a]..[z] to [A]..[Z] and keeps the rest. *)
Definition upperOnASCII (upper : string -> string) : Prop :=
  forall s, isASCII s = true -> upper s = ToUpperASCII s.

(** The path segment [CountryInfoHandler] reads the code from, [parts[4]]. *)
Definition infoSegment (path : string) : string := nth 4 (Split path "/") "".

(** The path segment [PopulationHandler] reads the code from, [parts[0]]
    after the route prefix is trimmed. *)
Definition populationSegment (path : string) : string :=
  nth 0 (Split (TrimPrefix path "/countryinfo/v1/population/") "/") "".

(** ** What the handlers ask the upstreams *)

(** The common name [FetchCountryInfo] gets out of the metadata upstream's
    answer for a code: the answer has status 200, decodes to a non-empty
    list, and the first record has a name. *)
Definition metadataName (w : Upstream) (countryCode : string) : option string :=
  match alpha_generic w (restCountriesAlpha countryCode) with
  | Response code (Decoded (country :: _)) =>
      if code =? StatusOK then extractString country ["name"; "common"] else None
  | _ => None
  end.

(** The name [FetchCountryName] resolves a code to: the answer has status
    200, decodes to a non-empty list, and the first common name is not
    empty. *)
Definition resolvedName (w : Upstream) (iso2 : string) : option string :=
  match alpha_name w (restCountriesAlpha iso2) with
  | Response code (Decoded (entry :: _)) =>
      if (code =? StatusOK) && negb (String.eqb (Common entry) "")
      then Some (Common entry) else None
  | _ => None
  end.

(** The calls [FetchCountryInfo] and [FetchPopulationData] are expected to
    make for a validated request. *)
Definition infoCalls (w : Upstream) (countryCode : string) : list Call :=
  GET (restCountriesAlpha countryCode) ::
  match metadataName w countryCode with
  | Some name => [POST citiesURL name]
  | None => []
  end.

Definition populationCalls (w : Upstream) (iso2 : string) : list Call :=
  GET (restCountriesAlpha iso2) ::
  match resolvedName w iso2 with
  | Some name => [POST populationAPI name]
  | None => []
  end.

(** ** The population report *)

(** The mean as [FetchPopulationData] computes it from the kept records:
    [total / count] on [int], with the wrap-around of both accumulators. *)
Definition meanOf (kept : list YearValue) : Z :=
  if GoInt.wrap (GoInt.len kept) >? 0
  then GoInt.div (GoInt.wrap (sumValues kept)) (GoInt.wrap (GoInt.len kept))
  else 0.

(** The history the population upstream holds for a name: status 200, a
    decodable document without error flag and with a [populationCounts]
    array. *)
Definition upstreamHistory (w : Upstream) (countryName : string) : option (list YearValue) :=
  match population_api w countryName with
  | Response code (Decoded apiResponse) =>
      if (code =? StatusOK) && negb (Error apiResponse)
      then PopulationCounts (Data apiResponse) else None
  | _ => None
  end.

(** ** Texts without "not found" *)

(** A text without the substring the 404 branch looks for. *)
Definition quiet (s : string) : Prop := Contains s notFound = false.

(** No text the upstreams supply contains "not found": error texts, the
    common name of the first country, the population upstream's [msg]. *)
Definition quietUpstream (w : Upstream) : Prop :=
  (forall url, Forall quiet (httpTexts (fun _ => []) (alpha_generic w url))) /\
  (forall url, Forall quiet (httpTexts (fun names => Common <$> take 1 names) (alpha_name w url))) /\
  (forall name, Forall quiet (httpTexts (fun _ => []) (cities_api w name))) /\
  (forall name, Forall quiet (httpTexts (fun api => [Msg api]) (population_api w name))).

(** * Example worlds *)

(** A world in which no upstream can be reached.  The example worlds are
    used with ASCII requests, on which [strings.ToUpper] is
    [ToUpperASCII]. *)
Definition unreachable : Upstream :=
  {| ToUpper := ToUpperASCII;
     alpha_generic := fun _ => TransportError "connection refused";
     alpha_name := fun _ => TransportError "connection refused";
     cities_api := fun _ => TransportError "connection refused";
     population_api := fun _ => TransportError "connection refused";
     health_api := fun _ => TransportError "connection refused";
     current_year := 2025;
     uptime_seconds := 0 |}.

(** A world whose population upstream answers every request with the given
    document and whose metadata upstream names every country [name]. *)
Definition populationWorld (name : string) (answer : http_result (body ApiResponse)) : Upstream :=
  {| ToUpper := ToUpperASCII;
     alpha_generic := alpha_generic unreachable;
     alpha_name := fun _ => Response StatusOK (Decoded [ {| Common := name |} ]);
     cities_api := cities_api unreachable;
     population_api := fun _ => answer;
     health_api := health_api unreachable;
     current_year := 2025;
     uptime_seconds := 0 |}.

(** A population document without error flag and with the given history. *)
Definition populationDocument (counts : option (list YearValue)) : ApiResponse :=
  {| Error := false;
     Msg := "";
     Data := {| Country := ""; Code := ""; Iso3 := ""; PopulationCounts := counts |} |}.

(** The history of the README's example request. *)
Definition indiaHistory : list YearValue :=
  [ {| Year := 2009; Value := 1217726215 |};
    {| Year := 2010; Value := 1234281170 |};
    {| Year := 2011; Value := 1250288729 |};
    {| Year := 2012; Value := 1265782790 |};
    {| Year := 2013; Value := 1280846129 |};
    {| Year := 2014; Value := 1295604184 |};
    {| Year := 2015; Value := 1310152403 |};
    {| Year := 2016; Value := 1324509589 |} ].

(** The README's population request for India. *)
Definition indiaWorld : Upstream :=
  populationWorld "India" (Response StatusOK (Decoded (populationDocument (Some indiaHistory)))).

(** Two records whose values are non-negative [int]s but add up to 2^63. *)
Definition hugeHistory : list YearValue :=
  [ {| Year := 2000; Value := 4611686018427387904 |};
    {| Year := 2001; Value := 4611686018427387904 |} ].

Definition hugeWorld : Upstream :=
  populationWorld "Norway" (Response StatusOK (Decoded (populationDocument (Some hugeHistory)))).

(** The README's example: Norway's record and the start of its city list. *)
Definition norwayRecord : gmap string value :=
  list_to_map
    [ ("name", VObject (list_to_map [("common", VString "Norway")]));
      ("region", VString "Europe");
      ("borders", VArray [VString "FIN"; VString "SWE"; VString "RUS"]);
      ("languages", VObject (list_to_map [("nno", VString "Norwegian Nynorsk");
                                          ("smi", VString "Sami")]));
      ("flags", VObject (list_to_map [("svg", VString "https://flagcdn.com/no.svg")]));
      ("capital", VArray [VString "Oslo"]);
      ("population", VNumber (S754_finite false 5379475 0)) ].

Definition norwayCities : list string :=
  ["Abelvaer"; "Adalsbruk"; "Adland"; "Agotnes"; "Agskardet"; "Aker"; "Akkarfjord"].

(** A world whose metadata upstream answers every request with one record
    and whose cities upstream answers every request with [answer]. *)
Definition infoWorld (country : gmap string value)
    (answer : http_result (body CitiesApiResponse)) : Upstream :=
  {| ToUpper := ToUpperASCII;
     alpha_generic := fun _ => Response StatusOK (Decoded [country]);
     alpha_name := alpha_name unreachable;
     cities_api := fun _ => answer;
     population_api := population_api unreachable;
     health_api := health_api unreachable;
     current_year := 2025;
     uptime_seconds := 0 |}.

Definition norwayWorld : Upstream :=
  infoWorld norwayRecord
    (Response StatusOK (Decoded {| CitiesError := false; CitiesData := norwayCities |})).

Definition norwayInfo (cities : list string) : CountryInfoResponse :=
  {| Name := "Norway";
     Continent := "Europe";
     Population := 5379475;
     Languages := list_to_map [("nno", "Norwegian Nynorsk"); ("smi", "Sami")];
     Borders := ["FIN"; "SWE"; "RUS"];
     Flag := "https://flagcdn.com/no.svg";
     Capital := "Oslo";
     Cities := cities |}.

(** A world in which every upstream answers 404 with an unreadable body. *)
Definition upstream404 : Upstream :=
  {| ToUpper := ToUpperASCII;
     alpha_generic := fun _ => Response 404 (ReadError "unexpected EOF");
     alpha_name := fun _ => Response 404 (ReadError "unexpected EOF");
     cities_api := fun _ => Response 404 (ReadError "unexpected EOF");
     population_api := fun _ => Response 404 (ReadError "unexpected EOF");
     health_api := fun _ => Response 404 ();
     current_year := 2025;
     uptime_seconds := 0 |}.

(** The population upstream reports an error and explains it with the very
    words the handler looks for. *)
Definition failingPopulationWorld : Upstream :=
  populationWorld "Norway"
    (Response StatusOK
       (Decoded {| Error := true;
                   Msg := "API request failed";
                   Data := {| Country := ""; Code := ""; Iso3 := "";
                              PopulationCounts := None |} |})).

Definition emptyPopulationWorld : Upstream :=
  populationWorld "Norway" (Response StatusOK (Decoded (populationDocument None))).

(** A record with nothing but a name. *)
Definition sparseRecord : gmap string value :=
  list_to_map [ ("name", VObject (list_to_map [("common", VString "Norway")])) ].

Definition sparseWorld : Upstream :=
  infoWorld sparseRecord
    (Response StatusOK (Decoded {| CitiesError := false; CitiesData := norwayCities |})).

(** A record whose [flags] object has no [svg] member, next to a top-level
    [svg] string. *)
Definition strayRecord : gmap string value :=
  list_to_map
    [ ("name", VObject (list_to_map [("common", VString "Norway")]));
      ("flags", VObject (list_to_map [("png", VString "https://flagcdn.com/w320/no.png")]));
      ("svg", VString "stray") ].

Definition strayWorld : Upstream :=
  infoWorld strayRecord
    (Response StatusOK (Decoded {| CitiesError := false; CitiesData := norwayCities |})).

Definition norwayWithoutCities : Upstream :=
  infoWorld norwayRecord (Response 500 (ReadError "unexpected EOF")).

(** A record whose population is a string. *)
Definition quotedPopulationRecord : gmap string value :=
  list_to_map
    [ ("name", VObject (list_to_map [("common", VString "Norway")]));
      ("population", VString "5379475") ].

(** A history with a negative value, which the [int] fields accept. *)
Definition signedHistory : list YearValue :=
  [ {| Year := 2000; Value := -3 |}; {| Year := 2001; Value := 0 |} ].

Definition signedWorld : Upstream :=
  populationWorld "Norway" (Response StatusOK (Decoded (populationDocument (Some signedHistory)))).

(** * Properties *)

(** ** Arithmetic on [int] *)

Lemma wrap_in_range z : GoInt.in_range z = true -> GoInt.wrap z = z.
Proof.
  unfold GoInt.in_range, GoInt.wrap, GoInt.min_int, GoInt.max_int, GoInt.bits.
  intros H. apply andb_prop in H as [Hlo Hhi].
  apply Z.leb_le in Hlo, Hhi.
  rewrite Z.mod_small; lia.
Qed.

Lemma wrap_add_l a b : GoInt.wrap (GoInt.wrap a + b) = GoInt.wrap (a + b).
Proof.
  unfold GoInt.wrap, GoInt.bits. f_equal.
  replace ((a + 2 ^ (64 - 1)) mod 2 ^ 64 - 2 ^ (64 - 1) + b + 2 ^ (64 - 1))
    with ((a + 2 ^ (64 - 1)) mod 2 ^ 64 + b) by lia.
  rewrite Zplus_mod_idemp_l. f_equal. lia.
Qed.

(** ** The filtering loop of [FetchPopulationData] *)

Lemma sumValues_app l1 l2 : sumValues (l1 ++ l2) = sumValues l1 + sumValues l2.
Proof. induction l1 as [|e l1 IH]; simpl; [reflexivity | rewrite IH; lia]. Qed.

Lemma sumValues_nonneg l :
  Forall (fun entry => 0 <= Value entry) l -> 0 <= sumValues l.
Proof. induction 1; simpl; lia. Qed.

Lemma filterStep_stateOf startYear endYear kept entry :
  filterStep startYear endYear (stateOf kept) entry
  = stateOf (kept ++ filter (fun e => inWindow startYear endYear e = true) [entry]).
Proof.
  unfold filterStep, stateOf.
  rewrite filter_cons, filter_nil.
  replace (Year entry >=? startYear) with (startYear <=? Year entry)
    by (rewrite Z.geb_leb; reflexivity).
  fold (inWindow startYear endYear entry).
  destruct (inWindow startYear endYear entry) eqn:Hin.
  - rewrite decide_True by reflexivity.
    unfold GoInt.add. rewrite !wrap_add_l.
    rewrite sumValues_app. unfold GoInt.len. rewrite length_app. simpl.
    do 3 f_equal; lia.
  - rewrite decide_False by discriminate.
    rewrite app_nil_r. reflexivity.
Qed.

Lemma fold_filterStep startYear endYear populationData kept :
  fold_left (filterStep startYear endYear) populationData (stateOf kept)
  = stateOf (kept ++ filter (fun e => inWindow startYear endYear e = true) populationData).
Proof.
  revert kept. induction populationData as [|entry rest IH]; intros kept.
  - simpl. rewrite filter_nil, app_nil_r. reflexivity.
  - cbn [fold_left]. rewrite filterStep_stateOf, IH.
    rewrite <- app_assoc. f_equal. f_equal.
    change (entry :: rest) with ([entry] ++ rest)%list. rewrite filter_app. reflexivity.
Qed.

Lemma filterLoop_spec startYear endYear populationData :
  filterLoop startYear endYear populationData
  = stateOf (filter (fun e => inWindow startYear endYear e = true) populationData).
Proof. apply (fold_filterStep startYear endYear populationData []). Qed.

(** ** Running the gateway *)

Lemma FetchCountryName_run iso2 w calls :
  FetchCountryName iso2 w calls
  = ((run (FetchCountryName iso2) w).1,
     (calls ++ [GET (restCountriesAlpha iso2)])%list).
Proof. reflexivity. Qed.

Lemma FetchCities_run countryName limit w calls :
  FetchCities countryName limit w calls
  = ((run (FetchCities countryName limit) w).1,
     (calls ++ [POST citiesURL countryName])%list).
Proof. reflexivity. Qed.

(** C1 (as amended): when the name lookup succeeds and the population
    upstream returns a history of non-negative values, [FetchPopulationData]
    returns exactly the records inside the window, in upstream order, and the
    mean is the floor of sum/count of those records (0 when there are none),
    provided the sum of the kept values fits Go's 64-bit [int]. *)
Theorem population_report_window
    (w : Upstream) (iso2 : string) (startYear endYear : Z)
    (countryName : string) (apiResponse : ApiResponse)
    (populationData : list YearValue) :
  startYear <= endYear \/ endYear = 0 ->
  (run (FetchCountryName iso2) w).1 = Ok countryName ->
  population_api w countryName = Response StatusOK (Decoded apiResponse) ->
  Error apiResponse = false ->
  PopulationCounts (Data apiResponse) = Some populationData ->
  Forall (fun entry => 0 <= Value entry) populationData ->
  GoInt.len populationData <= GoInt.max_int ->
  sumValues (filter (fun e => inWindow startYear endYear e = true) populationData)
    <= GoInt.max_int ->
  let kept := filter (fun e => inWindow startYear endYear e = true) populationData in
  (run (FetchPopulationData iso2 startYear endYear) w).1
  = Ok {| Mean := match kept with
                  | [] => 0
                  | _ => sumValues kept / GoInt.len kept
                  end;
          Values := kept |}.
Proof.
  intros Hwin Hname Hresp Herr Hcounts Hnonneg Hlen Hsum kept.
  fold kept in Hsum.
  unfold run, FetchPopulationData.
  assert ((startYear >? endYear) && negb (endYear =? 0) = false) as ->.
  { destruct Hwin as [Hle | ->].
    - apply andb_false_intro1. rewrite Z.gtb_ltb. apply Z.ltb_ge. exact Hle.
    - apply andb_false_intro2. reflexivity. }
  unfold mbind, IO_bind. rewrite FetchCountryName_run, Hname.
  unfold call, mret, IO_ret. rewrite Hresp. cbn [negb Z.eqb StatusOK fst].
  change (StatusOK =? StatusOK) with true. cbn [negb].
  rewrite Herr, Hcounts, filterLoop_spec. fold kept. unfold stateOf.
  assert (Hkept_nonneg : 0 <= sumValues kept).
  { apply sumValues_nonneg. unfold kept.
    apply Forall_forall. intros e He. apply list_elem_of_filter in He as [_ He].
    rewrite Forall_forall in Hnonneg. auto. }
  assert (Hkept_len : 0 <= GoInt.len kept <= GoInt.max_int).
  { unfold GoInt.len in *. split; [lia|].
    pose proof (length_filter (fun e => inWindow startYear endYear e = true) populationData).
    fold kept in H. lia. }
  rewrite (wrap_in_range (sumValues kept)), (wrap_in_range (GoInt.len kept)).
  2,3: unfold GoInt.in_range, GoInt.min_int, GoInt.max_int, GoInt.bits in *;
       apply andb_true_intro; split; apply Z.leb_le; lia.
  simpl. f_equal. f_equal.
  destruct kept as [|e kept'] eqn:Hk.
  - reflexivity.
  - assert (Hpos : 0 < GoInt.len (e :: kept')) by (unfold GoInt.len; simpl; lia).
    replace (GoInt.len (e :: kept') >? 0) with true
      by (symmetry; rewrite Z.gtb_ltb; apply Z.ltb_lt; exact Hpos).
    unfold GoInt.div. rewrite Z.quot_div_nonneg by lia.
    apply wrap_in_range.
    unfold GoInt.in_range, GoInt.min_int, GoInt.max_int, GoInt.bits in *.
    apply andb_true_intro; split; apply Z.leb_le.
    + pose proof (Z.div_pos (sumValues (e :: kept')) (GoInt.len (e :: kept'))). lia.
    + pose proof (Z.div_le_compat_l (sumValues (e :: kept')) 1 (GoInt.len (e :: kept'))) as Hdiv.
      rewrite Z.div_1_r in Hdiv. lia.
Qed.

Lemma population_report_window_witness :
  (run (FetchPopulationData "IN" 2010 2015) indiaWorld).1
  = Ok {| Mean := 1272825900;
          Values := [ {| Year := 2010; Value := 1234281170 |};
                      {| Year := 2011; Value := 1250288729 |};
                      {| Year := 2012; Value := 1265782790 |};
                      {| Year := 2013; Value := 1280846129 |};
                      {| Year := 2014; Value := 1295604184 |};
                      {| Year := 2015; Value := 1310152403 |} ] |}.
Proof.
  apply (population_report_window indiaWorld "IN" 2010 2015 "India"
           (populationDocument (Some indiaHistory)) indiaHistory).
  - left. lia.
  - reflexivity.
  - reflexivity.
  - reflexivity.
  - reflexivity.
  - unfold indiaHistory. repeat constructor; simpl; lia.
  - vm_compute. discriminate.
  - vm_compute. discriminate.
Defined.

(** C1 (as stated) fails: both values are non-negative and fit an [int], the
    window is unbounded, and the mean the code returns is negative, not the
    floor of sum/count. *)
Lemma population_mean_overflow :
  Forall (fun entry => 0 <= Value entry /\ GoInt.in_range (Value entry) = true) hugeHistory
  /\ (run (FetchPopulationData "NO" 0 0) hugeWorld).1
     = Ok {| Mean := -4611686018427387904; Values := hugeHistory |}
  /\ sumValues hugeHistory / GoInt.len hugeHistory = 4611686018427387904.
Proof.
  split; [| split].
  - unfold hugeHistory. repeat constructor; simpl; lia.
  - vm_compute. reflexivity.
  - vm_compute. reflexivity.
Qed.

(** ** The country code *)

Example country_code_examples :
  infoCountryCode ToUpperASCII "/countryinfo/v1/info/no" = inr "NO"
  /\ populationCountryCode ToUpperASCII "/countryinfo/v1/population/in" = inr "IN"
  /\ MatchISO2 (ToUpperASCII "norway") = false
  /\ MatchISO2 (ToUpperASCII "N") = false
  /\ MatchISO2 (ToUpperASCII "NOR") = false
  /\ MatchISO2 (ToUpperASCII "12") = false.
Proof. repeat split; reflexivity. Qed.

(** ** The city list and its limit *)

Lemma slice_to_length {A} (s : list A) (n : Z) (s' : list A) :
  slice_to s n = Ok s' -> GoInt.len s' <= n.
Proof.
  unfold slice_to. destruct (n <? 0) eqn:Hn; [discriminate|].
  intros [= <-]. apply Z.ltb_ge in Hn.
  unfold GoInt.len. rewrite length_take. lia.
Qed.

Lemma FetchCities_bounded w countryName limit cities :
  (run (FetchCities countryName limit) w).1 = Ok cities ->
  GoInt.len cities <= limit.
Proof.
  unfold run, FetchCities, mbind, IO_bind, call, mret, IO_ret. cbn [fst].
  destruct (cities_api w countryName) as [err | code [err | err | api]];
    try discriminate;
    destruct (negb (code =? StatusOK)); try discriminate.
  destruct (CitiesError api); [discriminate|].
  destruct (GoInt.len (CitiesData api) >? limit) eqn:Hcmp.
  - apply slice_to_length.
  - intros [= <-]. rewrite Z.gtb_ltb in Hcmp. apply Z.ltb_ge in Hcmp. exact Hcmp.
Qed.

Lemma FetchCountryInfo_bounded w countryCode limit info :
  0 < limit ->
  (run (FetchCountryInfo countryCode limit) w).1 = Ok info ->
  GoInt.len (Cities info) <= limit.
Proof.
  intros Hlimit.
  unfold run, FetchCountryInfo, mbind, IO_bind, call. cbn [fst].
  destruct (alpha_generic w (restCountriesAlpha countryCode))
    as [err | code [err | err | [|country rest]]];
    try (unfold mret, IO_ret; discriminate);
    destruct (negb (code =? StatusOK)); try (unfold mret, IO_ret; discriminate).
  destruct (extractString country ["name"; "common"]) as [name|];
    [| unfold mret, IO_ret; discriminate].
  rewrite FetchCities_run. unfold mret, IO_ret. cbn [fst].
  destruct (run (FetchCities name limit) w).1 as [cities | e |] eqn:Hcities;
    [| | discriminate]; intros [= <-]; cbn [Cities].
  - eapply FetchCities_bounded. exact Hcities.
  - unfold cityPlaceholder, GoInt.len. simpl. lia.
Qed.

Lemma infoLimit_spec queryLimit limit :
  infoLimit queryLimit = Some limit ->
  (queryLimit = "" /\ limit = 10) \/
  (queryLimit <> "" /\ Atoi queryLimit = Some limit /\ 0 < limit).
Proof.
  unfold infoLimit.
  destruct (String.eqb_spec queryLimit "") as [-> | Hne].
  - intros [= <-]. left. split; reflexivity.
  - destruct (Atoi queryLimit) as [parsed|]; [|discriminate].
    destruct (parsed <=? 0) eqn:Hpos; [discriminate|].
    intros [= <-]. right. apply Z.leb_gt in Hpos. repeat split; assumption.
Qed.

(** C2: for a valid country code and a valid limit (10 when the parameter is
    absent, otherwise the positive integer it parses to), every CountryInfo
    that [CountryInfoHandler] sends has at most [limit] cities; this covers
    the placeholder list substituted when the city fetch fails. *)
Theorem country_info_cities_bounded
    (w : Upstream) (r : Request) (countryCode : string) (limit : Z)
    (info : CountryInfoResponse) :
  infoCountryCode (ToUpper w) (Path r) = inr countryCode ->
  infoLimit (QueryLimit r) = Some limit ->
  (run (CountryInfoHandler r) w).1 = ReplyJSON info ->
  ((QueryLimit r = "" /\ limit = 10) \/
   (QueryLimit r <> "" /\ Atoi (QueryLimit r) = Some limit /\ 0 < limit))
  /\ GoInt.len (Cities info) <= limit.
Proof.
  intros Hcode Hlimit Hreply.
  pose proof (infoLimit_spec _ _ Hlimit) as Hspec.
  split; [exact Hspec|].
  assert (0 < limit) as Hpos by (destruct Hspec as [[_ ->] | (_ & _ & H)]; lia).
  revert Hreply.
  unfold run, CountryInfoHandler, mbind, IO_bind, ask. rewrite Hcode, Hlimit.
  unfold mbind, IO_bind.
  destruct (FetchCountryInfo countryCode limit w []) as [fetched calls] eqn:Hfetch.
  unfold mret, IO_ret. cbn [fst].
  destruct fetched as [info' | err |].
  - intros [= <-]. apply (FetchCountryInfo_bounded w countryCode limit); [exact Hpos|].
    unfold run. rewrite Hfetch. reflexivity.
  - unfold classify. repeat case_match; discriminate.
  - discriminate.
Qed.

Example norway_limit_5 :
  run (CountryInfoHandler {| Path := "/countryinfo/v1/info/no"; QueryLimit := "5" |}) norwayWorld
  = (ReplyJSON (norwayInfo ["Abelvaer"; "Adalsbruk"; "Adland"; "Agotnes"; "Agskardet"]),
     [GET "http://129.241.150.113:8080/v3.1/alpha/NO"; POST citiesURL "Norway"]).
Proof. vm_compute. reflexivity. Qed.

Lemma country_info_cities_bounded_witness :
  GoInt.len ["Abelvaer"; "Adalsbruk"; "Adland"; "Agotnes"; "Agskardet"] <= 5.
Proof.
  apply (country_info_cities_bounded norwayWorld
           {| Path := "/countryinfo/v1/info/no"; QueryLimit := "5" |}
           "NO" 5
           (norwayInfo ["Abelvaer"; "Adalsbruk"; "Adland"; "Agotnes"; "Agskardet"])).
  - reflexivity.
  - reflexivity.
  - vm_compute. reflexivity.
Defined.

(** ** Substrings of error messages *)

Lemma HasPrefix_clash u s pat :
  clash u pat = true -> HasPrefix (u +:+ s) pat = false.
Proof.
  revert pat. induction u as [|a u IH]; intros [|b pat]; simpl; try discriminate.
  destruct (Ascii.eqb a b); [|reflexivity].
  intros H. simpl. apply IH. exact H.
Qed.

Lemma Contains_sealed u s pat :
  sealed u pat = true -> Contains (u +:+ s) pat = Contains s pat.
Proof.
  induction u as [|a u IH]; [reflexivity|].
  intros H. apply andb_prop in H as [Hclash Hsealed].
  change (String a u +:+ s) with (String a (u +:+ s)).
  cbn [Contains]. rewrite IH by exact Hsealed.
  change (String a (u +:+ s)) with (String a u +:+ s).
  rewrite HasPrefix_clash by exact Hclash. reflexivity.
Qed.

Lemma sealed_first_char (P : ascii -> bool) u b pat :
  P b = false -> string_forall P u = true -> sealed u (String b pat) = true.
Proof.
  intros Hb. induction u as [|a u IH]; [reflexivity|].
  intros H. apply andb_prop in H as [Ha Hu].
  cbn [sealed clash].
  destruct (Ascii.eqb_spec a b) as [-> | _]; [congruence|].
  rewrite IH by exact Hu. reflexivity.
Qed.

Lemma string_of_uint_numeric d :
  string_forall numeric (NilEmpty.string_of_uint d) = true.
Proof. induction d; simpl; try rewrite IHd; reflexivity. Qed.

Lemma Itoa_numeric z : string_forall numeric (Itoa z) = true.
Proof.
  unfold Itoa, NilZero.string_of_int.
  destruct (Z.to_int z) as [d | d]; unfold NilZero.string_of_uint;
    destruct d; simpl; rewrite ?string_of_uint_numeric; reflexivity.
Qed.

(** A number printed with [%d] can neither hold nor start an occurrence of a
    pattern whose first character is a letter. *)
Lemma Contains_Itoa z s b pat :
  numeric b = false ->
  Contains (Itoa z +:+ s) (String b pat) = Contains s (String b pat).
Proof.
  intros Hb. apply Contains_sealed.
  apply (sealed_first_char numeric); [exact Hb | apply Itoa_numeric].
Qed.

Lemma Contains_short s pat :
  (String.length s < String.length pat)%nat -> Contains s pat = false.
Proof.
  assert (Hprefix : forall s pat,
             (String.length s < String.length pat)%nat -> HasPrefix s pat = false).
  { clear. induction s as [|a s IH]; intros [|b pat]; simpl; try lia; try reflexivity.
    intros H. rewrite IH by lia. apply andb_false_r. }
  induction s as [|a s IH]; intros H; cbn [Contains].
  - rewrite Hprefix by exact H. reflexivity.
  - rewrite Hprefix by exact H. apply IH. simpl in H. lia.
Qed.

Lemma append_empty_r s : s +:+ "" = s.
Proof.
  induction s as [|a s IH]; [reflexivity|].
  change (String a (s +:+ "") = String a s). rewrite IH. reflexivity.
Qed.

Lemma Contains_Itoa_end z b pat :
  numeric b = false -> Contains (Itoa z) (String b pat) = false.
Proof.
  intros Hb. rewrite <- (append_empty_r (Itoa z)).
  rewrite Contains_Itoa by exact Hb. reflexivity.
Qed.

(** Strips the constant and numeric parts off the front of a message under
    [Contains]. *)
Ltac strip_message :=
  repeat first
    [ rewrite Contains_Itoa by reflexivity
    | rewrite Contains_Itoa_end by reflexivity
    | rewrite Contains_sealed by (vm_compute; reflexivity) ].

(** ** How the handlers classify errors *)

Lemma classify_internal {A} err nf bg internal :
  Contains err notFound = false ->
  Contains err apiRequestFailed = false ->
  @classify A err nf bg internal = ReplyError StatusInternalServerError internal.
Proof. unfold classify, notFound, apiRequestFailed. intros -> ->. reflexivity. Qed.

Lemma classify_not_bad_gateway {A} err nf bg internal :
  Contains err apiRequestFailed = false ->
  status (@classify A err nf bg internal) <> Some StatusBadGateway.
Proof.
  unfold classify, apiRequestFailed. intros ->.
  destruct (Contains err "not found"); simpl; discriminate.
Qed.

Lemma invalidYearRange_unclassified startYear endYear :
  Contains (invalidYearRange startYear endYear) notFound = false /\
  Contains (invalidYearRange startYear endYear) apiRequestFailed = false.
Proof.
  unfold invalidYearRange, notFound, apiRequestFailed.
  split; strip_message; reflexivity.
Qed.

(** C4 (what the code does): a request whose limit parameter passes the
    handler's checks with startYear > endYear and endYear <> 0 is rejected by
    [FetchPopulationData] before any upstream call, but the handler answers
    500 Internal Server Error, not 400. *)
Theorem population_inverted_range_is_500
    (w : Upstream) (r : Request) (countryCode : string) (startYear endYear : Z) :
  populationCountryCode (ToUpper w) (Path r) = inr countryCode ->
  populationYearRange (QueryLimit r) (current_year w) = inr (startYear, endYear) ->
  startYear > endYear ->
  endYear <> 0 ->
  run (PopulationHandler r) w
  = (ReplyError StatusInternalServerError
       "Internal server error while fetching population data.",
     []).
Proof.
  intros Hcode Hrange Hgt Hnz.
  unfold run, PopulationHandler, mbind, IO_bind, ask. rewrite Hcode.
  unfold mbind, IO_bind, ask. rewrite Hrange.
  unfold FetchPopulationData.
  assert ((startYear >? endYear) && negb (endYear =? 0) = true) as ->.
  { apply andb_true_intro. split.
    - rewrite Z.gtb_ltb. apply Z.ltb_lt. lia.
    - apply negb_true_iff, Z.eqb_neq. exact Hnz. }
  unfold mret, IO_ret. f_equal.
  fold (invalidYearRange startYear endYear).
  destruct (invalidYearRange_unclassified startYear endYear) as [Hnf Hbg].
  apply classify_internal; assumption.
Qed.

Lemma population_inverted_range_is_500_witness :
  run (PopulationHandler {| Path := "/countryinfo/v1/population/NO";
                            QueryLimit := "2020-2010" |}) unreachable
  = (ReplyError 500 "Internal server error while fetching population data.", []).
Proof.
  apply (population_inverted_range_is_500 unreachable
           {| Path := "/countryinfo/v1/population/NO"; QueryLimit := "2020-2010" |}
           "NO" 2020 2010).
  - reflexivity.
  - reflexivity.
  - lia.
  - lia.
Defined.

(** *** Texts the upstreams put into error messages *)

Lemma Forall_clean_head x l : Forall clean (x :: l) -> Contains x "API request failed" = false.
Proof. intros H. inversion H; subst. assumption. Qed.

Ltac close_clean :=
  unfold clean, apiRequestFailed in *; strip_message;
  first [ reflexivity | assumption | eapply Forall_clean_head; eassumption ].

Lemma FetchCities_clean w countryName limit e :
  cleanUpstream w -> clean countryName ->
  (run (FetchCities countryName limit) w).1 = Err e -> clean e.
Proof.
  intros (_ & _ & Hcities & _) Hname. specialize (Hcities countryName).
  unfold run, FetchCities, mbind, IO_bind, call, mret, IO_ret. cbn [fst].
  destruct (cities_api w countryName) as [err | code [err | err | api]];
    cbn [httpTexts bodyTexts] in Hcities;
    try destruct (negb (code =? StatusOK));
    try (intros [= <-]; close_clean).
  destruct (CitiesError api); [intros [= <-]; close_clean|].
  destruct (GoInt.len (CitiesData api) >? limit); [|discriminate].
  unfold slice_to. destruct (limit <? 0); discriminate.
Qed.

Lemma FetchCountryInfo_clean w countryCode limit e :
  cleanUpstream w -> clean countryCode ->
  (run (FetchCountryInfo countryCode limit) w).1 = Err e -> clean e.
Proof.
  intros (Hgeneric & _) Hcode. specialize (Hgeneric (restCountriesAlpha countryCode)).
  unfold run, FetchCountryInfo, mbind, IO_bind, call. cbn [fst].
  destruct (alpha_generic w (restCountriesAlpha countryCode))
    as [err | code [err | err | [|country rest]]];
    cbn [httpTexts bodyTexts] in Hgeneric;
    try destruct (negb (code =? StatusOK));
    unfold mret, IO_ret; try (intros [= <-]; close_clean).
  destruct (extractString country ["name"; "common"]) as [name|];
    [| intros [= <-]; close_clean].
  rewrite FetchCities_run. cbn [fst].
  destruct (run (FetchCities name limit) w).1; discriminate.
Qed.

Lemma FetchCountryName_clean w iso2 e :
  cleanUpstream w -> clean iso2 ->
  (run (FetchCountryName iso2) w).1 = Err e -> clean e.
Proof.
  intros (_ & Hnames & _) Hiso2. specialize (Hnames (restCountriesAlpha iso2)).
  unfold run, FetchCountryName, mbind, IO_bind, call, mret, IO_ret. cbn [fst].
  destruct (alpha_name w (restCountriesAlpha iso2))
    as [err | code [err | err | [|entry rest]]];
    cbn [httpTexts bodyTexts] in Hnames;
    try destruct (negb (code =? StatusOK));
    try (intros [= <-]; close_clean).
  destruct (String.eqb (Common entry) ""); [intros [= <-]; close_clean | discriminate].
Qed.

Lemma FetchCountryName_name_clean w iso2 countryName :
  cleanUpstream w ->
  (run (FetchCountryName iso2) w).1 = Ok countryName -> clean countryName.
Proof.
  intros (_ & Hnames & _). specialize (Hnames (restCountriesAlpha iso2)).
  unfold run, FetchCountryName, mbind, IO_bind, call, mret, IO_ret. cbn [fst].
  destruct (alpha_name w (restCountriesAlpha iso2))
    as [err | code [err | err | [|entry rest]]];
    try destruct (negb (code =? StatusOK)); try discriminate.
  cbn in Hnames.
  destruct (String.eqb (Common entry) ""); [discriminate|].
  intros [= <-]. inversion Hnames; subst. assumption.
Qed.

Lemma FetchPopulationData_clean w iso2 startYear endYear e :
  cleanUpstream w -> clean iso2 ->
  (run (FetchPopulationData iso2 startYear endYear) w).1 = Err e -> clean e.
Proof.
  intros Hw Hiso2.
  unfold run, FetchPopulationData.
  destruct ((startYear >? endYear) && negb (endYear =? 0)).
  { unfold mret, IO_ret. intros [= <-].
    apply (invalidYearRange_unclassified startYear endYear). }
  unfold mbind, IO_bind. rewrite FetchCountryName_run.
  destruct (run (FetchCountryName iso2) w).1 as [countryName | err |] eqn:Hname.
  - pose proof (FetchCountryName_name_clean _ _ _ Hw Hname) as Hclean.
    destruct Hw as (_ & _ & _ & Hpop). specialize (Hpop countryName).
    unfold call, mret, IO_ret. cbn [fst].
    destruct (population_api w countryName) as [err | code [err | err | api]];
      cbn [httpTexts bodyTexts] in Hpop;
      try destruct (negb (code =? StatusOK));
      try (intros [= <-]; close_clean).
    destruct (Error api); [intros [= <-]; close_clean|].
    destruct (PopulationCounts (Data api)) as [populationData|];
      [| intros [= <-]; close_clean].
    destruct (filterLoop startYear endYear populationData) as [[kept total] count].
    discriminate.
  - pose proof (FetchCountryName_clean _ _ _ Hw Hiso2 Hname) as Hclean.
    unfold mret, IO_ret. intros [= <-]. close_clean.
  - discriminate.
Qed.

Lemma MatchISO2_length code : MatchISO2 code = true -> String.length code = 2%nat.
Proof. destruct code as [|a [|b [|c rest]]]; simpl; try discriminate. reflexivity. Qed.

Lemma infoCountryCode_valid upper path countryCode :
  infoCountryCode upper path = inr countryCode -> MatchISO2 countryCode = true.
Proof.
  unfold infoCountryCode.
  destruct (GoInt.len (Split path "/") <? 5); [discriminate|].
  destruct (MatchISO2 (upper (nth 4 (Split path "/") ""))) eqn:Hm; [|discriminate].
  intros [= <-]. exact Hm.
Qed.

Lemma populationCountryCode_valid upper path countryCode :
  populationCountryCode upper path = inr countryCode -> MatchISO2 countryCode = true.
Proof.
  unfold populationCountryCode.
  destruct ((GoInt.len _ <? 1) || String.eqb _ ""); [discriminate|].
  destruct (MatchISO2 _) eqn:Hm; [|discriminate].
  intros [= <-]. exact Hm.
Qed.

Lemma ISO2_unclassified code :
  MatchISO2 code = true ->
  Contains code notFound = false /\ Contains code apiRequestFailed = false.
Proof.
  intros H. apply MatchISO2_length in H.
  split; apply Contains_short; rewrite H; simpl; lia.
Qed.

(** With clean upstream texts neither handler can answer 502. *)
Lemma CountryInfoHandler_never_502 w r :
  cleanUpstream w ->
  status (run (CountryInfoHandler r) w).1 <> Some StatusBadGateway.
Proof.
  intros Hw. unfold run, CountryInfoHandler, mbind, IO_bind, ask.
  destruct (infoCountryCode (ToUpper w) (Path r)) as [rejected | countryCode] eqn:Hcode.
  { revert Hcode. unfold infoCountryCode.
    repeat case_match; intros [= <-]; discriminate. }
  destruct (infoLimit (QueryLimit r)) as [limit|]; [|discriminate].
  unfold mbind, IO_bind.
  destruct (FetchCountryInfo countryCode limit w []) as [fetched calls] eqn:Hfetch.
  unfold mret, IO_ret. cbn [fst].
  destruct fetched as [info | err |]; try discriminate.
  apply classify_not_bad_gateway.
  apply (FetchCountryInfo_clean w countryCode limit); [exact Hw | |].
  - apply ISO2_unclassified, (infoCountryCode_valid _ _ _ Hcode).
  - unfold run. rewrite Hfetch. reflexivity.
Qed.

Lemma populationYearRange_rejects limitParam currentYear rejected :
  populationYearRange limitParam currentYear = inl rejected ->
  status rejected = Some StatusBadRequest.
Proof.
  unfold populationYearRange. repeat case_match; intros [= <-]; reflexivity.
Qed.

Lemma PopulationHandler_never_502 w r :
  cleanUpstream w ->
  status (run (PopulationHandler r) w).1 <> Some StatusBadGateway.
Proof.
  intros Hw. unfold run, PopulationHandler, mbind, IO_bind, ask.
  destruct (populationCountryCode (ToUpper w) (Path r)) as [rejected | countryCode] eqn:Hcode.
  { revert Hcode. unfold populationCountryCode.
    repeat case_match; intros [= <-]; discriminate. }
  unfold mbind, IO_bind, ask.
  destruct (populationYearRange (QueryLimit r) (current_year w))
    as [rejected | [startYear endYear]] eqn:Hrange.
  { apply populationYearRange_rejects in Hrange.
    unfold mret, IO_ret. cbn [fst]. rewrite Hrange. discriminate. }
  destruct (FetchPopulationData countryCode startYear endYear w []) as [fetched calls] eqn:Hfetch.
  unfold mret, IO_ret. cbn [fst].
  destruct fetched as [data | err |]; try discriminate.
  apply classify_not_bad_gateway.
  apply (FetchPopulationData_clean w countryCode startYear endYear); [exact Hw | |].
  - apply ISO2_unclassified, (populationCountryCode_valid _ _ _ Hcode).
  - unfold run. rewrite Hfetch. reflexivity.
Qed.

(** *** A status other than 200 ends in 500 *)

Lemma negb_status_ok code : code <> StatusOK -> negb (code =? StatusOK) = true.
Proof. intros H. apply negb_true_iff, Z.eqb_neq. exact H. Qed.

Lemma info_non200_is_500 w r countryCode limit code b :
  infoCountryCode (ToUpper w) (Path r) = inr countryCode ->
  infoLimit (QueryLimit r) = Some limit ->
  alpha_generic w (restCountriesAlpha countryCode) = Response code b ->
  code <> StatusOK ->
  (run (CountryInfoHandler r) w).1 = internalInfo.
Proof.
  intros Hcode Hlimit Hresp Hne.
  unfold run, CountryInfoHandler, mbind, IO_bind, ask. rewrite Hcode, Hlimit.
  unfold FetchCountryInfo, mbind, IO_bind, call. rewrite Hresp.
  rewrite negb_status_ok by exact Hne. unfold mret, IO_ret. cbn [fst].
  apply classify_internal; unfold notFound, apiRequestFailed;
    strip_message; reflexivity.
Qed.

Lemma valid_range_passes startYear endYear :
  startYear <= endYear \/ endYear = 0 ->
  (startYear >? endYear) && negb (endYear =? 0) = false.
Proof.
  intros [Hle | ->].
  - apply andb_false_intro1. rewrite Z.gtb_ltb. apply Z.ltb_ge. exact Hle.
  - apply andb_false_intro2. reflexivity.
Qed.

Lemma population_name_non200_is_500 w r countryCode startYear endYear code b :
  populationCountryCode (ToUpper w) (Path r) = inr countryCode ->
  populationYearRange (QueryLimit r) (current_year w) = inr (startYear, endYear) ->
  alpha_name w (restCountriesAlpha countryCode) = Response code b ->
  code <> StatusOK ->
  (run (PopulationHandler r) w).1 = internalPopulation.
Proof.
  intros Hcode Hrange Hresp Hne.
  unfold run, PopulationHandler, mbind, IO_bind, ask. rewrite Hcode.
  unfold mbind, IO_bind, ask. rewrite Hrange.
  unfold FetchPopulationData.
  destruct ((startYear >? endYear) && negb (endYear =? 0)).
  { unfold mret, IO_ret. cbn [fst].
    fold (invalidYearRange startYear endYear).
    destruct (invalidYearRange_unclassified startYear endYear) as [Hnf Hbg].
    apply classify_internal; assumption. }
  unfold mbind, IO_bind, FetchCountryName, mbind, IO_bind, call. rewrite Hresp.
  rewrite negb_status_ok by exact Hne. unfold mret, IO_ret. cbn [fst].
  apply classify_internal; unfold notFound, apiRequestFailed;
    strip_message; reflexivity.
Qed.

Lemma population_api_non200_is_500 w r countryCode startYear endYear countryName code b :
  populationCountryCode (ToUpper w) (Path r) = inr countryCode ->
  populationYearRange (QueryLimit r) (current_year w) = inr (startYear, endYear) ->
  (run (FetchCountryName countryCode) w).1 = Ok countryName ->
  population_api w countryName = Response code b ->
  code <> StatusOK ->
  (run (PopulationHandler r) w).1 = internalPopulation.
Proof.
  intros Hcode Hrange Hname Hresp Hne.
  unfold run, PopulationHandler, mbind, IO_bind, ask. rewrite Hcode.
  unfold mbind, IO_bind, ask. rewrite Hrange.
  unfold FetchPopulationData.
  destruct ((startYear >? endYear) && negb (endYear =? 0)).
  { unfold mret, IO_ret. cbn [fst].
    fold (invalidYearRange startYear endYear).
    destruct (invalidYearRange_unclassified startYear endYear) as [Hnf Hbg].
    apply classify_internal; assumption. }
  unfold mbind, IO_bind. rewrite FetchCountryName_run, Hname.
  unfold call. rewrite Hresp.
  rewrite negb_status_ok by exact Hne. unfold mret, IO_ret. cbn [fst].
  apply classify_internal; unfold notFound, apiRequestFailed;
    strip_message; reflexivity.
Qed.

(** A status other than 200 from the cities upstream does not reach the
    handler: the placeholder takes the place of the city list. *)
Lemma info_cities_non200_is_200 w r countryCode limit country rest name code b :
  infoCountryCode (ToUpper w) (Path r) = inr countryCode ->
  infoLimit (QueryLimit r) = Some limit ->
  alpha_generic w (restCountriesAlpha countryCode)
  = Response StatusOK (Decoded (country :: rest)) ->
  extractString country ["name"; "common"] = Some name ->
  cities_api w name = Response code b ->
  code <> StatusOK ->
  (run (CountryInfoHandler r) w).1 = ReplyJSON (assembled country name cityPlaceholder).
Proof.
  intros Hcode Hlimit Hresp Hname Hcities Hne.
  unfold run, CountryInfoHandler, mbind, IO_bind, ask. rewrite Hcode, Hlimit.
  unfold FetchCountryInfo, mbind, IO_bind, call. rewrite Hresp.
  change (negb (StatusOK =? StatusOK)) with false. cbv iota.
  rewrite Hname.
  unfold FetchCities, mbind, IO_bind, call, mret, IO_ret. rewrite Hcities.
  rewrite negb_status_ok by exact Hne. reflexivity.
Qed.

(** C3 (as amended): when neither the argument a gateway function formats
    into its messages (the country code, for [FetchCities] the country name)
    nor any text supplied by the upstreams (transport, read and decode error
    texts, the first country's common name, the population upstream's [msg])
    contains "API request failed", no error of the four gateway functions
    contains it; with such upstream texts neither handler answers 502.  A
    response status other than 200 from the metadata upstream, for either
    endpoint, or from the population upstream makes the handler answer 500
    Internal Server Error; one from the cities upstream never reaches the
    handler, which answers 200 with the placeholder city list. *)
Theorem bad_gateway_needs_upstream_text (w : Upstream) :
  (cleanUpstream w ->
   (forall countryCode limit e,
       clean countryCode ->
       (run (FetchCountryInfo countryCode limit) w).1 = Err e -> clean e) /\
   (forall countryName limit e,
       clean countryName ->
       (run (FetchCities countryName limit) w).1 = Err e -> clean e) /\
   (forall iso2 e,
       clean iso2 ->
       (run (FetchCountryName iso2) w).1 = Err e -> clean e) /\
   (forall iso2 startYear endYear e,
       clean iso2 ->
       (run (FetchPopulationData iso2 startYear endYear) w).1 = Err e -> clean e) /\
   (forall r, status (run (CountryInfoHandler r) w).1 <> Some StatusBadGateway) /\
   (forall r, status (run (PopulationHandler r) w).1 <> Some StatusBadGateway))
  /\
  (forall r countryCode limit code b,
      infoCountryCode (ToUpper w) (Path r) = inr countryCode ->
      infoLimit (QueryLimit r) = Some limit ->
      alpha_generic w (restCountriesAlpha countryCode) = Response code b ->
      code <> StatusOK ->
      (run (CountryInfoHandler r) w).1 = internalInfo)
  /\
  (forall r countryCode startYear endYear code b,
      populationCountryCode (ToUpper w) (Path r) = inr countryCode ->
      populationYearRange (QueryLimit r) (current_year w) = inr (startYear, endYear) ->
      alpha_name w (restCountriesAlpha countryCode) = Response code b ->
      code <> StatusOK ->
      (run (PopulationHandler r) w).1 = internalPopulation)
  /\
  (forall r countryCode startYear endYear countryName code b,
      populationCountryCode (ToUpper w) (Path r) = inr countryCode ->
      populationYearRange (QueryLimit r) (current_year w) = inr (startYear, endYear) ->
      (run (FetchCountryName countryCode) w).1 = Ok countryName ->
      population_api w countryName = Response code b ->
      code <> StatusOK ->
      (run (PopulationHandler r) w).1 = internalPopulation)
  /\
  (forall r countryCode limit country rest name code b,
      infoCountryCode (ToUpper w) (Path r) = inr countryCode ->
      infoLimit (QueryLimit r) = Some limit ->
      alpha_generic w (restCountriesAlpha countryCode)
      = Response StatusOK (Decoded (country :: rest)) ->
      extractString country ["name"; "common"] = Some name ->
      cities_api w name = Response code b ->
      code <> StatusOK ->
      (run (CountryInfoHandler r) w).1
      = ReplyJSON
          {| Name := name;
             Continent := extractRegion country;
             Population := extractPopulation country;
             Languages := extractLanguages country;
             Borders := extractStringArray country "borders";
             Flag := default "" (extractString country ["flags"; "svg"]);
             Capital := extractCapital country;
             Cities := ["City data not available"] |}).
Proof.
  split; [intros Hw; repeat split | repeat split].
  - intros countryCode limit e. apply FetchCountryInfo_clean. exact Hw.
  - intros countryName limit e. apply FetchCities_clean. exact Hw.
  - intros iso2 e. apply FetchCountryName_clean. exact Hw.
  - intros iso2 startYear endYear e. apply FetchPopulationData_clean. exact Hw.
  - intros r. apply CountryInfoHandler_never_502. exact Hw.
  - intros r. apply PopulationHandler_never_502. exact Hw.
  - intros r countryCode limit code b. apply info_non200_is_500.
  - intros r countryCode startYear endYear code b. apply population_name_non200_is_500.
  - intros r countryCode startYear endYear countryName code b.
    apply population_api_non200_is_500.
  - intros r countryCode limit country rest name code b.
    apply info_cities_non200_is_200.
Qed.

Lemma bad_gateway_needs_upstream_text_witness :
  status (run (PopulationHandler {| Path := "/countryinfo/v1/population/no";
                                    QueryLimit := "" |}) upstream404).1
  <> Some StatusBadGateway.
Proof.
  apply (proj1 (bad_gateway_needs_upstream_text upstream404)).
  repeat split; intros ?; repeat constructor.
Defined.

(** C3 (as stated) fails: [FetchPopulationData] returns an error whose
    message contains "API request failed", and [PopulationHandler] answers
    502 Bad Gateway. *)
Lemma bad_gateway_reachable :
  (run (FetchPopulationData "NO" 0 0) failingPopulationWorld).1
  = Err "population API returned an error: API request failed"
  /\ Contains "population API returned an error: API request failed"
       "API request failed" = true
  /\ (run (PopulationHandler {| Path := "/countryinfo/v1/population/no";
                                QueryLimit := "" |}) failingPopulationWorld).1
     = ReplyError StatusBadGateway "Failed to retrieve data from the external API.".
Proof. repeat split; vm_compute; reflexivity. Qed.

(** ** A population document without history *)

(** C5 (what the code does): with a valid code and range, a successful name
    lookup and a population document that carries no error flag and no
    [populationCounts], the handler answers 500 Internal Server Error, not
    404: the message "no population data found for country: ..." does not
    contain "not found" (unless the country's name does). *)
Theorem population_missing_history_is_500
    (w : Upstream) (r : Request) (countryCode : string) (startYear endYear : Z)
    (countryName : string) (apiResponse : ApiResponse) :
  populationCountryCode (ToUpper w) (Path r) = inr countryCode ->
  populationYearRange (QueryLimit r) (current_year w) = inr (startYear, endYear) ->
  startYear <= endYear \/ endYear = 0 ->
  (run (FetchCountryName countryCode) w).1 = Ok countryName ->
  population_api w countryName = Response StatusOK (Decoded apiResponse) ->
  Error apiResponse = false ->
  PopulationCounts (Data apiResponse) = None ->
  Contains countryName notFound = false ->
  Contains countryName apiRequestFailed = false ->
  (run (FetchPopulationData countryCode startYear endYear) w).1
  = Err ("no population data found for country: " +:+ countryName)
  /\ (run (PopulationHandler r) w).1 = internalPopulation.
Proof.
  intros Hcode Hrange Hvalid Hname Hresp Herr Hcounts Hnf Hbg.
  assert (Hfetch : FetchPopulationData countryCode startYear endYear w []
                   = (Err ("no population data found for country: " +:+ countryName),
                      [GET (restCountriesAlpha countryCode);
                       POST populationAPI countryName])).
  { unfold FetchPopulationData. rewrite valid_range_passes by exact Hvalid.
    unfold mbind, IO_bind. rewrite FetchCountryName_run, Hname.
    unfold call, mret, IO_ret. rewrite Hresp.
    change (negb (StatusOK =? StatusOK)) with false. cbv iota.
    rewrite Herr, Hcounts. reflexivity. }
  split.
  - unfold run. rewrite Hfetch. reflexivity.
  - unfold run, PopulationHandler, mbind, IO_bind, ask. rewrite Hcode.
    unfold mbind, IO_bind, ask. rewrite Hrange, Hfetch.
    unfold mret, IO_ret. cbn [fst].
    apply classify_internal; unfold notFound, apiRequestFailed in *;
      strip_message; assumption.
Qed.

Lemma population_missing_history_is_500_witness :
  (run (PopulationHandler {| Path := "/countryinfo/v1/population/NO";
                             QueryLimit := "" |}) emptyPopulationWorld).1
  = ReplyError 500 "Internal server error while fetching population data.".
Proof.
  apply (population_missing_history_is_500 emptyPopulationWorld
           {| Path := "/countryinfo/v1/population/NO"; QueryLimit := "" |}
           "NO" 0 0 "Norway" (populationDocument None)).
  - reflexivity.
  - reflexivity.
  - right. reflexivity.
  - reflexivity.
  - reflexivity.
  - reflexivity.
  - reflexivity.
  - reflexivity.
  - reflexivity.
Defined.

(** ** The health probe *)

Lemma checkAPIHealth_run url w calls :
  checkAPIHealth url w calls
  = ((run (checkAPIHealth url) w).1, (calls ++ [GET url])%list).
Proof. reflexivity. Qed.

(** C6: [checkAPIHealth] is a total function into strings: it returns
    "FAILED" when the request errors, "200" exactly when the response status
    is 200, and "ERROR " followed by the status text for any other status;
    [StatusHandler] always replies with a JSON document that carries the two
    probe results. *)
Theorem health_probe_status (w : Upstream) (url : string) (r : Request) :
  let probe := (run (checkAPIHealth url) w).1 in
  match health_api w url with
  | TransportError _ => probe = "FAILED"
  | Response code _ =>
      if code =? StatusOK
      then probe = "200"
      else probe = "ERROR " +:+ StatusText code
           /\ probe <> "200" /\ probe <> "FAILED"
  end
  /\ (run (StatusHandler r) w).1
     = ReplyJSON
         {| CountriesNowAPI :=
              (run (checkAPIHealth "http://129.241.150.113:3500/api/v0.1/countries") w).1;
            RestCountriesAPI :=
              (run (checkAPIHealth "http://129.241.150.113:8080/v3.1/all") w).1;
            Version := "v1";
            Uptime := uptime_seconds w |}.
Proof.
  split.
  - unfold run, checkAPIHealth, mbind, IO_bind, call, mret, IO_ret. cbn [fst].
    destruct (health_api w url) as [err | code b]; [reflexivity|].
    destruct (code =? StatusOK); cbn [negb]; [reflexivity|].
    repeat split; discriminate.
  - unfold run, StatusHandler, mbind, IO_bind, ask.
    rewrite !checkAPIHealth_run. reflexivity.
Qed.

Example probe_not_found :
  (run (checkAPIHealth "http://129.241.150.113:8080/v3.1/all") upstream404).1
  = "ERROR Not Found".
Proof. reflexivity. Qed.

Example probe_refused :
  (run (checkAPIHealth "http://129.241.150.113:8080/v3.1/all") unreachable).1
  = "FAILED".
Proof. reflexivity. Qed.

(** ** The year range of the population endpoint *)

(** [Split] gives one part more than there are separators. *)
Lemma Split_length s sep : length (Split s sep) = S (count_byte sep s).
Proof.
  induction s as [|c s IH]; [reflexivity|].
  cbn [Split count_byte]. destruct (Ascii.eqb c sep).
  - simpl. rewrite IH. reflexivity.
  - destruct (Split s sep) as [|part parts]; simpl in *; [discriminate | exact IH].
Qed.

Lemma Split_nonempty_input s sep a b : Split s sep = [a; b] -> s <> "".
Proof. intros H ->. discriminate. Qed.

(** C9: the limit parameter of the population endpoint.  An absent (empty)
    value gives the bounds (0, 0); a value that does not split into exactly
    two parts at ["-"], that is, with a number of ["-"] other than one, is
    rejected with 400; so are two parts that do not both parse as integers,
    and a parsed pair with start < 1900 or end > current year; every other
    parsed pair is the window.  A rejected value ends the request before any
    upstream call. *)
Theorem year_range_validator (limitParam : string) (currentYear : Z) :
  (limitParam = "" -> populationYearRange limitParam currentYear = inr (0, 0))
  /\
  (limitParam <> "" -> count_byte "-" limitParam <> 1%nat ->
   populationYearRange limitParam currentYear
   = inl (ReplyError StatusBadRequest "Invalid 'limit' format. Use 'startYear-endYear'."))
  /\
  (forall first second,
      Split limitParam "-" = [first; second] ->
      Atoi first = None \/ Atoi second = None ->
      populationYearRange limitParam currentYear
      = inl (ReplyError StatusBadRequest
               "Invalid 'limit' format. Use 'startYear-endYear' with numeric values (e.g., '2000-2020')."))
  /\
  (forall first second startYear endYear,
      Split limitParam "-" = [first; second] ->
      Atoi first = Some startYear -> Atoi second = Some endYear ->
      startYear < 1900 \/ endYear > currentYear ->
      populationYearRange limitParam currentYear
      = inl (ReplyError StatusBadRequest
               ("Year range out of bounds. Use years between 1900 and "
                +:+ Itoa currentYear +:+ ".")))
  /\
  (forall first second startYear endYear,
      Split limitParam "-" = [first; second] ->
      Atoi first = Some startYear -> Atoi second = Some endYear ->
      1900 <= startYear -> endYear <= currentYear ->
      populationYearRange limitParam currentYear = inr (startYear, endYear))
  /\
  (forall w r countryCode rejected,
      populationCountryCode (ToUpper w) (Path r) = inr countryCode ->
      QueryLimit r = limitParam -> current_year w = currentYear ->
      populationYearRange limitParam currentYear = inl rejected ->
      run (PopulationHandler r) w = (rejected, [])
      /\ status rejected = Some StatusBadRequest).
Proof.
  split; [|split; [|split; [|split; [|split]]]].
  - intros ->. reflexivity.
  - intros Hne Hcount. unfold populationYearRange.
    destruct (String.eqb_spec limitParam "") as [-> | _]; [congruence|].
    pose proof (Split_length limitParam "-") as Hlen.
    destruct (Split limitParam "-") as [|a [|b [|c rest]]]; simpl in Hlen;
      try reflexivity.
    congruence.
  - intros first second Hsplit Hparse. unfold populationYearRange.
    pose proof (Split_nonempty_input _ _ _ _ Hsplit) as Hne.
    destruct (String.eqb_spec limitParam "") as [-> | _]; [congruence|].
    rewrite Hsplit.
    destruct Hparse as [-> | ->]; [reflexivity|].
    destruct (Atoi first); reflexivity.
  - intros first second startYear endYear Hsplit Hfirst Hsecond Hout.
    unfold populationYearRange.
    pose proof (Split_nonempty_input _ _ _ _ Hsplit) as Hne.
    destruct (String.eqb_spec limitParam "") as [-> | _]; [congruence|].
    rewrite Hsplit, Hfirst, Hsecond.
    assert ((startYear <? 1900) || (endYear >? currentYear) = true) as ->; [|reflexivity].
    apply orb_true_iff. rewrite Z.gtb_ltb.
    destruct Hout; [left | right]; apply Z.ltb_lt; lia.
  - intros first second startYear endYear Hsplit Hfirst Hsecond Hlo Hhi.
    unfold populationYearRange.
    pose proof (Split_nonempty_input _ _ _ _ Hsplit) as Hne.
    destruct (String.eqb_spec limitParam "") as [-> | _]; [congruence|].
    rewrite Hsplit, Hfirst, Hsecond.
    assert ((startYear <? 1900) || (endYear >? currentYear) = false) as ->; [|reflexivity].
    apply orb_false_iff. rewrite Z.gtb_ltb.
    split; apply Z.ltb_ge; lia.
  - intros w r countryCode rejected Hcode Hlimit Hyear Hrejected. split.
    + unfold run, PopulationHandler, mbind, IO_bind, ask. rewrite Hcode. unfold mbind, IO_bind, ask.
      rewrite Hlimit, Hyear, Hrejected. reflexivity.
    + apply (populationYearRange_rejects _ _ _ Hrejected).
Qed.

Lemma year_range_validator_witness :
  populationYearRange "2010-2015" 2025 = inr (2010, 2015).
Proof.
  apply (proj1 (proj2 (proj2 (proj2 (proj2 (year_range_validator "2010-2015" 2025)))))
           "2010" "2015" 2010 2015).
  - reflexivity.
  - reflexivity.
  - reflexivity.
  - lia.
  - lia.
Defined.

Example year_range_examples :
  populationYearRange "2010-2015" 2025 = inr (2010, 2015)
  /\ populationYearRange "2020-2010" 2025 = inr (2020, 2010)
  /\ populationYearRange "" 2025 = inr (0, 0)
  /\ populationYearRange "1899-2000" 2025
     = inl (ReplyError 400 "Year range out of bounds. Use years between 1900 and 2025.")
  /\ populationYearRange "2000-2026" 2025
     = inl (ReplyError 400 "Year range out of bounds. Use years between 1900 and 2025.")
  /\ populationYearRange "2000" 2025
     = inl (ReplyError 400 "Invalid 'limit' format. Use 'startYear-endYear'.")
  /\ populationYearRange "20x0-2010" 2025
     = inl (ReplyError 400
              "Invalid 'limit' format. Use 'startYear-endYear' with numeric values (e.g., '2000-2020').").
Proof. repeat split; vm_compute; reflexivity. Qed.

(** ** Defensive extraction in [FetchCountryInfo] *)

Lemma FetchCountryInfo_assembled w countryCode limit country rest name :
  alpha_generic w (restCountriesAlpha countryCode)
  = Response StatusOK (Decoded (country :: rest)) ->
  extractString country ["name"; "common"] = Some name ->
  (run (FetchCountryInfo countryCode limit) w).1
  = match (run (FetchCities name limit) w).1 with
    | Ok cities => Ok (assembled country name cities)
    | Err _ => Ok (assembled country name cityPlaceholder)
    | Panic => Panic
    end.
Proof.
  intros Hresp Hname.
  unfold run at 1. unfold FetchCountryInfo, mbind, IO_bind, call. rewrite Hresp.
  change (negb (StatusOK =? StatusOK)) with false. cbv iota.
  rewrite Hname, FetchCities_run. unfold mret, IO_ret. cbn [fst].
  destruct (run (FetchCities name limit) w).1; reflexivity.
Qed.

Lemma FetchCities_no_panic w countryName limit :
  0 <= limit -> (run (FetchCities countryName limit) w).1 <> Panic.
Proof.
  intros Hlimit.
  unfold run, FetchCities, mbind, IO_bind, call, mret, IO_ret. cbn [fst].
  destruct (cities_api w countryName) as [err | code [err | err | api]];
    try discriminate;
    destruct (negb (code =? StatusOK)); try discriminate.
  destruct (CitiesError api); [discriminate|].
  destruct (GoInt.len (CitiesData api) >? limit); [|discriminate].
  unfold slice_to. destruct (limit <? 0) eqn:Hneg; [|discriminate].
  apply Z.ltb_lt in Hneg. lia.
Qed.

(** With a record that has a name and a limit that is not negative,
    [FetchCountryInfo] returns a response, assembled from the record. *)
Lemma FetchCountryInfo_succeeds w countryCode limit country rest name :
  0 <= limit ->
  alpha_generic w (restCountriesAlpha countryCode)
  = Response StatusOK (Decoded (country :: rest)) ->
  extractString country ["name"; "common"] = Some name ->
  exists cities,
    (run (FetchCountryInfo countryCode limit) w).1 = Ok (assembled country name cities).
Proof.
  intros Hlimit Hresp Hname.
  rewrite (FetchCountryInfo_assembled _ _ _ _ _ _ Hresp Hname).
  pose proof (FetchCities_no_panic w name limit Hlimit) as Hpanic.
  destruct (run (FetchCities name limit) w).1 as [cities | e |].
  - exists cities. reflexivity.
  - exists cityPlaceholder. reflexivity.
  - congruence.
Qed.

Lemma extractString_flag_none (country : gmap string value) :
  holdsNoString (country !! "flags") ->
  holdsNoString (country !! "svg") ->
  extractString country ["flags"; "svg"] = None.
Proof.
  unfold extractString, holdsNoString. cbn [extractStringFrom].
  intros Hflags Hsvg.
  destruct (country !! "flags") as [[ | | | | | nested]|]; try contradiction;
    [..| destruct Hflags as [H1 H2]; cbn [extractNested]; rewrite H1, H2 | ];
    (destruct (country !! "svg") as [[ | | | | | nested']|]; try contradiction;
     try reflexivity;
     destruct Hsvg as [H3 H4]; cbn [extractNested]; rewrite H3, H4; reflexivity).
Qed.

(** C7 (as amended): for a record with a usable name, [FetchCountryInfo]
    returns a response whatever the optional fields hold, with region
    "Unknown" when region is missing or not a string, capital "N/A" when
    capital is missing, not an array, empty, or its first element is not a
    string, empty languages and borders when those fields are missing or
    wrong-typed, and flag "" when neither [flags] nor [svg] of the record is
    a string or an object with a string under [flags] or [svg]. *)
Theorem country_info_defaults
    (w : Upstream) (countryCode : string) (limit : Z)
    (country : gmap string value) (rest : list (gmap string value)) (name : string) :
  0 <= limit ->
  alpha_generic w (restCountriesAlpha countryCode)
  = Response StatusOK (Decoded (country :: rest)) ->
  extractString country ["name"; "common"] = Some name ->
  exists info,
    (run (FetchCountryInfo countryCode limit) w).1 = Ok info
    /\ Name info = name
    /\ (country !! "region" ≫= as_string = None -> Continent info = "Unknown")
    /\ (capitalUnusable (country !! "capital") -> Capital info = "N/A")
    /\ (holdsNoString (country !! "flags") -> holdsNoString (country !! "svg") ->
        Flag info = "")
    /\ (country !! "languages" ≫= as_object = None -> Languages info = ∅)
    /\ (country !! "borders" ≫= as_array = None -> Borders info = []).
Proof.
  intros Hlimit Hresp Hname.
  destruct (FetchCountryInfo_succeeds _ _ _ _ _ _ Hlimit Hresp Hname) as [cities Hok].
  exists (assembled country name cities).
  split; [exact Hok|]. split; [reflexivity|].
  cbn [assembled Continent Capital Flag Languages Borders].
  repeat split.
  - unfold extractRegion.
    destruct (country !! "region") as [[]|]; simpl; congruence.
  - unfold extractCapital, capitalUnusable.
    intros [H | [-> | (first & others & -> & H)]].
    + destruct (country !! "capital") as [[]|]; simpl in H; congruence.
    + reflexivity.
    + destruct first; simpl in H; congruence.
  - intros Hflags Hsvg. rewrite extractString_flag_none by assumption. reflexivity.
  - unfold extractLanguages.
    destruct (country !! "languages") as [[]|]; simpl; congruence.
  - unfold extractStringArray.
    destruct (country !! "borders") as [[]|]; simpl; congruence.
Qed.

Lemma country_info_defaults_witness :
  exists info,
    (run (FetchCountryInfo "NO" 10) sparseWorld).1 = Ok info
    /\ Name info = "Norway"
    /\ Continent info = "Unknown"
    /\ Capital info = "N/A"
    /\ Flag info = ""
    /\ Languages info = ∅
    /\ Borders info = [].
Proof.
  destruct (country_info_defaults sparseWorld "NO" 10 sparseRecord [] "Norway")
    as (info & Hok & Hname & Hregion & Hcapital & Hflag & Hlanguages & Hborders).
  - lia.
  - reflexivity.
  - reflexivity.
  - exists info. repeat split.
    + exact Hok.
    + exact Hname.
    + apply Hregion. reflexivity.
    + apply Hcapital. left. reflexivity.
    + apply Hflag; exact I.
    + apply Hlanguages. reflexivity.
    + apply Hborders. reflexivity.
Defined.

(** C7 (as stated) fails for the flag: [flags.svg] is missing, and the flag
    of the response is not the empty string. *)
Lemma flag_default_not_applied :
  flagsSvg strayRecord = None
  /\ extractString strayRecord ["name"; "common"] = Some "Norway"
  /\ (run (FetchCountryInfo "NO" 10) strayWorld).1
     = Ok {| Name := "Norway";
             Continent := "Unknown";
             Population := 0;
             Languages := ∅;
             Borders := [];
             Flag := "stray";
             Capital := "N/A";
             Cities := norwayCities |}.
Proof. repeat split; vm_compute; reflexivity. Qed.

(** ** The city fetch inside [FetchCountryInfo] *)

Lemma FetchCities_fails w countryName limit :
  citiesFetchFails (cities_api w countryName) ->
  exists e, (run (FetchCities countryName limit) w).1 = Err e.
Proof.
  unfold citiesFetchFails, run, FetchCities, mbind, IO_bind, call, mret, IO_ret.
  cbn [fst].
  destruct (cities_api w countryName) as [err | code b]; [eauto|].
  destruct (Z.eq_dec code StatusOK) as [-> | Hne].
  - change (negb (StatusOK =? StatusOK)) with false. cbv iota.
    intros [Hcode | Hbody]; [congruence|].
    destruct b as [err | err | api]; eauto.
    rewrite Hbody. eauto.
  - rewrite negb_status_ok by exact Hne. eauto.
Qed.

(** C8: when the metadata fetch yields a record with a name and the city
    fetch fails, for whichever reason, [FetchCountryInfo] succeeds with the
    one-element placeholder as city list and every other field taken from
    the record; the handler sends that response. *)
Theorem cities_failure_gives_placeholder
    (w : Upstream) (r : Request) (countryCode : string) (limit : Z)
    (country : gmap string value) (rest : list (gmap string value)) (name : string) :
  infoCountryCode (ToUpper w) (Path r) = inr countryCode ->
  infoLimit (QueryLimit r) = Some limit ->
  alpha_generic w (restCountriesAlpha countryCode)
  = Response StatusOK (Decoded (country :: rest)) ->
  extractString country ["name"; "common"] = Some name ->
  citiesFetchFails (cities_api w name) ->
  let info :=
    {| Name := name;
       Continent := extractRegion country;
       Population := extractPopulation country;
       Languages := extractLanguages country;
       Borders := extractStringArray country "borders";
       Flag := default "" (extractString country ["flags"; "svg"]);
       Capital := extractCapital country;
       Cities := ["City data not available"] |} in
  (run (FetchCountryInfo countryCode limit) w).1 = Ok info
  /\ (run (CountryInfoHandler r) w).1 = ReplyJSON info.
Proof.
  intros Hcode Hlimit Hresp Hname Hfails info.
  destruct (FetchCities_fails w name limit Hfails) as [e He].
  assert (Hinfo : (run (FetchCountryInfo countryCode limit) w).1 = Ok info).
  { rewrite (FetchCountryInfo_assembled _ _ _ _ _ _ Hresp Hname), He. reflexivity. }
  split; [exact Hinfo|].
  unfold run in *. unfold CountryInfoHandler, mbind, IO_bind, ask. rewrite Hcode, Hlimit.
  unfold mbind, IO_bind.
  destruct (FetchCountryInfo countryCode limit w []) as [fetched calls].
  cbn [fst] in Hinfo. rewrite Hinfo. reflexivity.
Qed.

Lemma cities_failure_gives_placeholder_witness :
  (run (CountryInfoHandler {| Path := "/countryinfo/v1/info/no"; QueryLimit := "5" |})
     norwayWithoutCities).1
  = ReplyJSON (norwayInfo ["City data not available"]).
Proof.
  apply (cities_failure_gives_placeholder norwayWithoutCities
           {| Path := "/countryinfo/v1/info/no"; QueryLimit := "5" |}
           "NO" 5 norwayRecord [] "Norway").
  - reflexivity.
  - reflexivity.
  - reflexivity.
  - reflexivity.
  - left. discriminate.
Defined.

(** ** The population field *)

(** C10 (as amended): when the first record has a usable name and its
    [population] field is missing or is not a JSON number, [FetchCountryInfo]
    returns a response whose population is 0. *)
Theorem population_defaults_to_zero
    (w : Upstream) (countryCode : string) (limit : Z)
    (country : gmap string value) (rest : list (gmap string value)) (name : string) :
  0 <= limit ->
  alpha_generic w (restCountriesAlpha countryCode)
  = Response StatusOK (Decoded (country :: rest)) ->
  extractString country ["name"; "common"] = Some name ->
  (forall f, country !! "population" <> Some (VNumber f)) ->
  exists info,
    (run (FetchCountryInfo countryCode limit) w).1 = Ok info
    /\ Population info = 0.
Proof.
  intros Hlimit Hresp Hname Hpop.
  destruct (FetchCountryInfo_succeeds _ _ _ _ _ _ Hlimit Hresp Hname) as [cities Hok].
  exists (assembled country name cities). split; [exact Hok|].
  cbn [assembled Population]. unfold extractPopulation.
  destruct (country !! "population") as [[]|] eqn:Hfield; try reflexivity.
  exfalso. eapply Hpop. reflexivity.
Qed.

Lemma population_defaults_to_zero_witness :
  exists info,
    (run (FetchCountryInfo "NO" 10)
       (infoWorld quotedPopulationRecord (cities_api unreachable "Norway"))).1 = Ok info
    /\ Population info = 0.
Proof.
  apply (population_defaults_to_zero
           (infoWorld quotedPopulationRecord (cities_api unreachable "Norway"))
           "NO" 10 quotedPopulationRecord [] "Norway").
  - lia.
  - reflexivity.
  - reflexivity.
  - intros f. vm_compute. discriminate.
Defined.

(** C10 (as stated) fails: the payload [[{}]] has no [population] field, and
    [FetchCountryInfo] fails on it, because it has no name either; the
    handler answers 404. *)
Lemma population_default_needs_name :
  (∅ : gmap string value) !! "population" = None
  /\ (run (FetchCountryInfo "NO" 10) (infoWorld ∅ (cities_api norwayWorld "Norway"))).1
     = Err "country name not found"
  /\ (run (CountryInfoHandler {| Path := "/countryinfo/v1/info/no"; QueryLimit := "" |})
         (infoWorld ∅ (cities_api norwayWorld "Norway"))).1
     = ReplyError StatusNotFound "country not found in the database.".
Proof. repeat split; vm_compute; reflexivity. Qed.

(** * Further properties of the handlers and the gateway *)

(** ** Country codes *)

Lemma is_upper_upper_byte c : is_upper (upper_byte c) = is_letter c.
Proof. destruct c as [[] [] [] [] [] [] [] []]; reflexivity. Qed.

(** A segment passes the ISO2 check after upper-casing exactly when it
    consists of two letters. *)
Lemma MatchISO2_ToUpperASCII segment :
  MatchISO2 (ToUpperASCII segment) = true <->
  exists a b, segment = String a (String b "")
              /\ is_letter a = true /\ is_letter b = true.
Proof.
  split.
  - destruct segment as [|a [|b [|c rest]]]; simpl; try discriminate.
    rewrite !is_upper_upper_byte. intros H. apply andb_prop in H as [Ha Hb].
    exists a, b. auto.
  - intros (a & b & -> & Ha & Hb). simpl.
    rewrite !is_upper_upper_byte, Ha, Hb. reflexivity.
Qed.

Lemma infoCountryCode_rejects upper path rejected :
  infoCountryCode upper path = inl rejected -> status rejected = Some StatusBadRequest.
Proof. unfold infoCountryCode. repeat case_match; intros [= <-]; reflexivity. Qed.

Lemma populationCountryCode_rejects upper path rejected :
  populationCountryCode upper path = inl rejected -> status rejected = Some StatusBadRequest.
Proof. unfold populationCountryCode. repeat case_match; intros [= <-]; reflexivity. Qed.

Lemma isASCII_Split s sep :
  isASCII s = true -> Forall (fun part => isASCII part = true) (Split s sep).
Proof.
  induction s as [|c s IH]; cbn [Split isASCII].
  - intros _. repeat constructor.
  - intros H. apply andb_prop in H as [Hc Hs]. specialize (IH Hs).
    destruct (Ascii.eqb c sep).
    + constructor; [reflexivity | exact IH].
    + destruct (Split s sep) as [|part parts].
      * repeat constructor. cbn [isASCII]. rewrite Hc. reflexivity.
      * inversion IH; subst. constructor; [|assumption].
        cbn [isASCII]. rewrite Hc. assumption.
Qed.

Lemma isASCII_nth (parts : list string) (i : nat) :
  Forall (fun part => isASCII part = true) parts -> isASCII (nth i parts "") = true.
Proof.
  intros H. revert i. induction H as [|part parts Hpart _ IH]; intros [|i]; simpl; auto.
Qed.

Lemma isASCII_drop n s : isASCII s = true -> isASCII (string_drop n s) = true.
Proof.
  revert s. induction n as [|n IH]; intros [|c s]; cbn [string_drop isASCII]; auto.
  intros H. apply andb_prop in H as [_ Hs]. apply IH. exact Hs.
Qed.

Lemma isASCII_TrimPrefix s prefix : isASCII s = true -> isASCII (TrimPrefix s prefix) = true.
Proof.
  intros H. unfold TrimPrefix. destruct (HasPrefix s prefix); [|exact H].
  apply isASCII_drop. exact H.
Qed.

(** X1: for a request path of ASCII bytes, on which [strings.ToUpper] is the
    ASCII mapping, [CountryInfoHandler] accepts the path exactly when it has
    at least five ["/"]-separated parts and the fifth consists of two ASCII
    letters of either case; the code it then uses is that segment in upper
    case.  Every other such request is answered with 400 before any upstream
    call. *)
Theorem info_code_validation (w : Upstream) (r : Request) :
  upperOnASCII (ToUpper w) ->
  isASCII (Path r) = true ->
  match infoCountryCode (ToUpper w) (Path r) with
  | inl rejected =>
      run (CountryInfoHandler r) w = (rejected, [])
      /\ status rejected = Some StatusBadRequest
      /\ ~ (5 <= GoInt.len (Split (Path r) "/")
            /\ exists a b, infoSegment (Path r) = String a (String b "")
                           /\ is_letter a = true /\ is_letter b = true)
  | inr countryCode =>
      5 <= GoInt.len (Split (Path r) "/")
      /\ exists a b, infoSegment (Path r) = String a (String b "")
                     /\ is_letter a = true /\ is_letter b = true
                     /\ countryCode = String (upper_byte a) (String (upper_byte b) "")
                     /\ MatchISO2 countryCode = true
  end.
Proof.
  intros Hupper Hascii.
  assert (Hsegment : ToUpper w (infoSegment (Path r)) = ToUpperASCII (infoSegment (Path r))).
  { apply Hupper. unfold infoSegment. apply isASCII_nth, isASCII_Split. exact Hascii. }
  unfold run, CountryInfoHandler, mbind, IO_bind, ask, infoCountryCode.
  destruct (GoInt.len (Split (Path r) "/") <? 5) eqn:Hlen.
  - apply Z.ltb_lt in Hlen. repeat split. intros [H _]. lia.
  - apply Z.ltb_ge in Hlen.
    fold (infoSegment (Path r)). rewrite Hsegment.
    destruct (MatchISO2 (ToUpperASCII (infoSegment (Path r)))) eqn:Hmatch; cbn [negb].
    + split; [exact Hlen|].
      pose proof (proj1 (MatchISO2_ToUpperASCII _) Hmatch) as (a & b & Hseg & Ha & Hb).
      exists a, b. rewrite Hseg in *. repeat split; auto.
    + repeat split. intros [_ H].
      apply MatchISO2_ToUpperASCII in H. congruence.
Qed.

Lemma info_code_validation_witness :
  run (CountryInfoHandler {| Path := "/countryinfo/v1/info/norway"; QueryLimit := "" |})
      norwayWorld
  = (ReplyError 400 "invalid country code. Use a valid ISO2 format (e.g., 'NO', 'US')", []).
Proof.
  pose proof (info_code_validation norwayWorld
                {| Path := "/countryinfo/v1/info/norway"; QueryLimit := "" |}
                (fun s _ => eq_refl) eq_refl) as Hrejected.
  cbv beta iota zeta delta [infoCountryCode] in Hrejected.
  vm_compute (GoInt.len _ <? 5) in Hrejected.
  vm_compute (MatchISO2 _) in Hrejected.
  cbv beta iota zeta delta [negb] in Hrejected.
  exact (proj1 Hrejected).
Defined.

(** X2: the same for [PopulationHandler], whose code is the first
    ["/"]-separated part of the path behind the route prefix. *)
Theorem population_code_validation (w : Upstream) (r : Request) :
  upperOnASCII (ToUpper w) ->
  isASCII (Path r) = true ->
  match populationCountryCode (ToUpper w) (Path r) with
  | inl rejected =>
      run (PopulationHandler r) w = (rejected, [])
      /\ status rejected = Some StatusBadRequest
      /\ ~ exists a b, populationSegment (Path r) = String a (String b "")
                       /\ is_letter a = true /\ is_letter b = true
  | inr countryCode =>
      exists a b, populationSegment (Path r) = String a (String b "")
                  /\ is_letter a = true /\ is_letter b = true
                  /\ countryCode = String (upper_byte a) (String (upper_byte b) "")
                  /\ MatchISO2 countryCode = true
  end.
Proof.
  intros Hupper Hascii.
  assert (Hsegment : ToUpper w (populationSegment (Path r))
                     = ToUpperASCII (populationSegment (Path r))).
  { apply Hupper. unfold populationSegment.
    apply isASCII_nth, isASCII_Split, isASCII_TrimPrefix. exact Hascii. }
  unfold run, PopulationHandler, mbind, IO_bind, ask, populationCountryCode.
  fold (populationSegment (Path r)).
  destruct ((GoInt.len _ <? 1) || String.eqb (populationSegment (Path r)) "") eqn:Hmissing.
  - repeat split. intros (a & b & Hseg & _).
    apply orb_prop in Hmissing as [Hlen | Hempty].
    + apply Z.ltb_lt in Hlen. unfold GoInt.len in Hlen.
      pose proof (Split_length (TrimPrefix (Path r) "/countryinfo/v1/population/") "/").
      lia.
    + apply String.eqb_eq in Hempty. congruence.
  - rewrite Hsegment.
    destruct (MatchISO2 (ToUpperASCII (populationSegment (Path r)))) eqn:Hmatch; cbn [negb].
    + pose proof (proj1 (MatchISO2_ToUpperASCII _) Hmatch) as (a & b & Hseg & Ha & Hb).
      exists a, b. rewrite Hseg in *. repeat split; auto.
    + repeat split. intros H.
      apply MatchISO2_ToUpperASCII in H. congruence.
Qed.

Lemma population_code_validation_witness :
  run (PopulationHandler {| Path := "/countryinfo/v1/population/NOR"; QueryLimit := "" |})
      indiaWorld
  = (ReplyError 400 "Invalid country code. Use a valid ISO2 format (e.g., 'NO', 'US')", []).
Proof.
  pose proof (population_code_validation indiaWorld
                {| Path := "/countryinfo/v1/population/NOR"; QueryLimit := "" |}
                (fun s _ => eq_refl) eq_refl) as Hrejected.
  cbv beta iota zeta delta [populationCountryCode] in Hrejected.
  vm_compute (_ || _) in Hrejected.
  vm_compute (MatchISO2 _) in Hrejected.
  cbv beta iota zeta delta [negb] in Hrejected.
  exact (proj1 Hrejected).
Defined.

(** ** Numbers in query parameters *)

Lemma Atoi_in_range s z : Atoi s = Some z -> GoInt.in_range z = true.
Proof.
  unfold Atoi.
  destruct (match s with
            | String "-" s' => (fun z : Z => - z) <$> parse_unsigned s'
            | String "+" s' => parse_unsigned s'
            | _ => parse_unsigned s
            end) as [signed|]; [|discriminate].
  cbn. destruct (GoInt.in_range signed) eqn:Hrange; [|discriminate].
  intros [= <-]. exact Hrange.
Qed.

Lemma parse_digits_ge acc s z : parse_digits acc s = Some z -> 0 <= acc -> acc <= z.
Proof.
  revert acc. induction s as [|c s IH]; intros acc; cbn [parse_digits].
  - intros [= <-] _. lia.
  - destruct (is_digit c) eqn:Hdigit; [|discriminate].
    intros H Hacc. unfold is_digit in Hdigit.
    apply andb_prop in Hdigit as [Hlo Hhi]. apply Z.leb_le in Hlo, Hhi.
    specialize (IH _ H). lia.
Qed.

Lemma parse_unsigned_nonneg s z : parse_unsigned s = Some z -> 0 <= z.
Proof.
  unfold parse_unsigned. destruct s; [discriminate|].
  intros H. apply parse_digits_ge in H; lia.
Qed.

(** Without a minus sign [Atoi] cannot produce a negative number. *)
Lemma Atoi_nonneg s z :
  string_forall (fun c => negb (Ascii.eqb c "-")) s = true ->
  Atoi s = Some z -> 0 <= z.
Proof.
  intros Hminus. unfold Atoi.
  destruct s as [|c s'].
  - discriminate.
  - cbn [string_forall] in Hminus. apply andb_prop in Hminus as [Hc _].
    destruct (Ascii.eqb_spec c "-") as [-> | Hne]; [discriminate|].
    assert (Hsigned :
              match String c s' with
              | String "-" s'' => (fun z : Z => - z) <$> parse_unsigned s''
              | String "+" s'' => parse_unsigned s''
              | _ => parse_unsigned (String c s')
              end = (if Ascii.eqb c "+" then parse_unsigned s'
                     else parse_unsigned (String c s'))).
    { destruct c as [[] [] [] [] [] [] [] []]; try reflexivity. congruence. }
    rewrite Hsigned.
    destruct (if Ascii.eqb c "+" then parse_unsigned s' else parse_unsigned (String c s'))
      as [signed|] eqn:Hparse; [|discriminate].
    cbn. destruct (GoInt.in_range signed); [|discriminate].
    intros [= <-].
    destruct (Ascii.eqb c "+"); eapply parse_unsigned_nonneg; exact Hparse.
Qed.

(** No part produced by [Split] contains the separator. *)
Lemma Split_parts_free s sep :
  Forall (fun part => string_forall (fun c => negb (Ascii.eqb c sep)) part = true)
         (Split s sep).
Proof.
  induction s as [|c s IH]; cbn [Split].
  - repeat constructor.
  - destruct (Ascii.eqb c sep) eqn:Hc.
    + constructor; [reflexivity | exact IH].
    + destruct (Split s sep) as [|part parts].
      * repeat constructor. cbn [string_forall]. rewrite Hc. reflexivity.
      * inversion IH; subst. constructor; [|assumption].
        cbn [string_forall]. rewrite Hc. assumption.
Qed.

(** X3: with a valid country code, a limit parameter that is not a positive
    decimal [int] makes [CountryInfoHandler] answer 400 before any upstream
    call; a limit it accepts lies between 1 and the largest [int], and is 10
    when the parameter is absent. *)
Theorem info_limit_validation (w : Upstream) (r : Request) (countryCode : string) :
  infoCountryCode (ToUpper w) (Path r) = inr countryCode ->
  match infoLimit (QueryLimit r) with
  | None =>
      run (CountryInfoHandler r) w
      = (ReplyError StatusBadRequest
           "invalid 'limit' parameter. Must be a positive integer.", [])
      /\ QueryLimit r <> ""
      /\ (Atoi (QueryLimit r) = None
          \/ exists parsed, Atoi (QueryLimit r) = Some parsed /\ parsed <= 0)
  | Some limit =>
      1 <= limit <= GoInt.max_int
      /\ (QueryLimit r = "" -> limit = 10)
      /\ (QueryLimit r <> "" -> Atoi (QueryLimit r) = Some limit)
  end.
Proof.
  intros Hcode.
  destruct (infoLimit (QueryLimit r)) as [limit|] eqn:Hlimit.
  - destruct (infoLimit_spec _ _ Hlimit) as [[Hq ->] | (Hq & Hparse & Hpos)].
    + split; [vm_compute; split; discriminate|]. split; [reflexivity | congruence].
    + pose proof (Atoi_in_range _ _ Hparse) as Hrange.
      unfold GoInt.in_range in Hrange. apply andb_prop in Hrange as [_ Hhi].
      apply Z.leb_le in Hhi.
      split; [lia|]. split; [congruence | intros _; exact Hparse].
  - split.
    + unfold run, CountryInfoHandler, mbind, IO_bind, ask. rewrite Hcode, Hlimit. reflexivity.
    + revert Hlimit. unfold infoLimit.
      destruct (String.eqb_spec (QueryLimit r) "") as [Hq | Hq]; [discriminate|].
      destruct (Atoi (QueryLimit r)) as [parsed|]; [|intros _; split; [exact Hq | left; reflexivity]].
      destruct (parsed <=? 0) eqn:Hle; [|discriminate].
      intros _. apply Z.leb_le in Hle.
      split; [exact Hq|]. right. exists parsed. split; [reflexivity | exact Hle].
Qed.

Lemma info_limit_validation_witness :
  run (CountryInfoHandler {| Path := "/countryinfo/v1/info/no"; QueryLimit := "0" |})
      norwayWorld
  = (ReplyError 400 "invalid 'limit' parameter. Must be a positive integer.", []).
Proof.
  apply (info_limit_validation norwayWorld
           {| Path := "/countryinfo/v1/info/no"; QueryLimit := "0" |} "NO").
  reflexivity.
Defined.

(** X4: a window accepted from a non-empty limit parameter has a start year
    of at least 1900 and an end year between 0 and the current year: a
    negative year cannot be written, since every ["-"] splits the value, and
    an open start (0) cannot be requested together with an end. *)
Theorem year_range_accepted
    (limitParam : string) (currentYear startYear endYear : Z) :
  populationYearRange limitParam currentYear = inr (startYear, endYear) ->
  (limitParam = "" /\ startYear = 0 /\ endYear = 0)
  \/ (limitParam <> ""
      /\ 1900 <= startYear <= GoInt.max_int
      /\ 0 <= endYear <= currentYear).
Proof.
  unfold populationYearRange.
  destruct (String.eqb_spec limitParam "") as [-> | Hne].
  - intros [= <- <-]. left. auto.
  - pose proof (Split_parts_free limitParam "-") as Hfree.
    destruct (Split limitParam "-") as [|first [|second [|third rest]]];
      try discriminate.
    destruct (Atoi first) as [s|] eqn:Hfirst; [|discriminate].
    destruct (Atoi second) as [e|] eqn:Hsecond; [|discriminate].
    destruct ((s <? 1900) || (e >? currentYear)) eqn:Hbounds; [discriminate|].
    intros [= <- <-]. right.
    apply orb_false_iff in Hbounds as [Hlo Hhi].
    apply Z.ltb_ge in Hlo. rewrite Z.gtb_ltb in Hhi. apply Z.ltb_ge in Hhi.
    inversion Hfree as [|? ? _ Hrest]; subst.
    inversion Hrest as [|? ? Hsecond_free _]; subst.
    pose proof (Atoi_nonneg _ _ Hsecond_free Hsecond).
    pose proof (Atoi_in_range _ _ Hfirst) as Hrange.
    unfold GoInt.in_range in Hrange. apply andb_prop in Hrange as [_ Hmax].
    apply Z.leb_le in Hmax.
    split; [exact Hne|]. lia.
Qed.

Lemma year_range_accepted_witness :
  ("2010-2015" = "" /\ 2010 = 0 /\ 2015 = 0)
  \/ ("2010-2015" <> "" /\ 1900 <= 2010 <= GoInt.max_int /\ 0 <= 2015 <= 2025).
Proof.
  apply (year_range_accepted "2010-2015" 2025 2010 2015). reflexivity.
Defined.

(** ** The limit on the city list *)

(** X5: when the cities upstream answers 200 with a document without error
    flag and the limit is not negative, [FetchCities] returns the first
    [limit] cities of the document, in the document's order (all of them
    when there are no more than [limit]). *)
Theorem FetchCities_truncates
    (w : Upstream) (countryName : string) (limit : Z) (apiResponse : CitiesApiResponse) :
  cities_api w countryName = Response StatusOK (Decoded apiResponse) ->
  CitiesError apiResponse = false ->
  0 <= limit ->
  (run (FetchCities countryName limit) w).1
  = Ok (take (Z.to_nat limit) (CitiesData apiResponse))
  /\ GoInt.len (take (Z.to_nat limit) (CitiesData apiResponse))
     = Z.min limit (GoInt.len (CitiesData apiResponse)).
Proof.
  intros Hresp Herr Hlimit. split.
  - unfold run, FetchCities, mbind, IO_bind, call, mret, IO_ret. cbn [fst].
    rewrite Hresp. change (negb (StatusOK =? StatusOK)) with false. cbv iota.
    rewrite Herr.
    destruct (GoInt.len (CitiesData apiResponse) >? limit) eqn:Hcmp.
    + unfold slice_to.
      destruct (limit <? 0) eqn:Hneg; [apply Z.ltb_lt in Hneg; lia | reflexivity].
    + rewrite Z.gtb_ltb in Hcmp. apply Z.ltb_ge in Hcmp. unfold GoInt.len in Hcmp.
      rewrite take_ge by lia. reflexivity.
  - unfold GoInt.len. rewrite length_take. lia.
Qed.

Lemma FetchCities_truncates_witness :
  (run (FetchCities "Norway" 3) norwayWorld).1 = Ok ["Abelvaer"; "Adalsbruk"; "Adland"].
Proof.
  apply (FetchCities_truncates norwayWorld "Norway" 3
           {| CitiesError := false; CitiesData := norwayCities |}).
  - reflexivity.
  - reflexivity.
  - lia.
Defined.

(** X6: [FetchCities] panics exactly when it is given a negative limit and
    the upstream answers 200 with a document without error flag (the slice
    expression [Cities[:limit]] is then out of range); every failure of the
    upstream is reported as an error before the limit is looked at. *)
Theorem FetchCities_panics_iff (w : Upstream) (countryName : string) (limit : Z) :
  ((run (FetchCities countryName limit) w).1 = Panic)
  <-> (limit < 0
       /\ exists apiResponse,
            cities_api w countryName = Response StatusOK (Decoded apiResponse)
            /\ CitiesError apiResponse = false).
Proof.
  unfold run, FetchCities, mbind, IO_bind, call, mret, IO_ret. cbn [fst].
  split.
  - destruct (cities_api w countryName) as [err | code [err | err | api]];
      try discriminate;
      destruct (Z.eq_dec code StatusOK) as [-> | Hne];
      try (rewrite negb_status_ok by exact Hne; discriminate);
      change (negb (StatusOK =? StatusOK)) with false; cbv iota;
      try discriminate.
    destruct (CitiesError api) eqn:Herr; [discriminate|].
    destruct (GoInt.len (CitiesData api) >? limit); [|discriminate].
    unfold slice_to. destruct (limit <? 0) eqn:Hneg; [|discriminate].
    intros _. apply Z.ltb_lt in Hneg. split; [exact Hneg|].
    exists api. split; [reflexivity | exact Herr].
  - intros (Hneg & api & -> & Herr).
    change (negb (StatusOK =? StatusOK)) with false. cbv iota. rewrite Herr.
    assert ((GoInt.len (CitiesData api) >? limit) = true) as ->.
    { rewrite Z.gtb_ltb. apply Z.ltb_lt. unfold GoInt.len. lia. }
    unfold slice_to. apply Z.ltb_lt in Hneg. rewrite Hneg. reflexivity.
Qed.

Lemma FetchCountryInfo_no_panic w countryCode limit :
  0 <= limit -> (run (FetchCountryInfo countryCode limit) w).1 <> Panic.
Proof.
  intros Hlimit.
  unfold run, FetchCountryInfo, mbind, IO_bind, call. cbn [fst].
  destruct (alpha_generic w (restCountriesAlpha countryCode))
    as [err | code [err | err | [|country rest]]];
    try (unfold mret, IO_ret; discriminate);
    destruct (negb (code =? StatusOK)); try (unfold mret, IO_ret; discriminate).
  destruct (extractString country ["name"; "common"]) as [name|];
    [| unfold mret, IO_ret; discriminate].
  rewrite FetchCities_run. unfold mret, IO_ret. cbn [fst].
  pose proof (FetchCities_no_panic w name limit Hlimit) as Hcities.
  destruct (run (FetchCities name limit) w).1; try discriminate. congruence.
Qed.

(** X7: [CountryInfoHandler] never panics, whatever the request and the
    upstreams: the limit it hands to [FetchCities] is positive. *)
Theorem CountryInfoHandler_never_panics (w : Upstream) (r : Request) :
  (run (CountryInfoHandler r) w).1 <> ReplyPanic.
Proof.
  unfold run, CountryInfoHandler, mbind, IO_bind, ask.
  destruct (infoCountryCode (ToUpper w) (Path r)) as [rejected | countryCode] eqn:Hcode.
  { revert Hcode. unfold infoCountryCode.
    repeat case_match; intros [= <-]; discriminate. }
  destruct (infoLimit (QueryLimit r)) as [limit|] eqn:Hlimit; [|discriminate].
  assert (0 <= limit) as Hpos.
  { destruct (infoLimit_spec _ _ Hlimit) as [[_ ->] | (_ & _ & H)]; lia. }
  pose proof (FetchCountryInfo_no_panic w countryCode limit Hpos) as Hpanic.
  unfold run in Hpanic. unfold mbind, IO_bind.
  destruct (FetchCountryInfo countryCode limit w []) as [fetched calls].
  unfold mret, IO_ret. cbn [fst] in *.
  destruct fetched as [info | err |]; [discriminate | | congruence].
  unfold classify. repeat case_match; discriminate.
Qed.

(** ** The order of upstream calls *)

Lemma FetchCountryInfo_calls w countryCode limit :
  (run (FetchCountryInfo countryCode limit) w).2 = infoCalls w countryCode.
Proof.
  unfold run, FetchCountryInfo, infoCalls, metadataName, mbind, IO_bind, call.
  cbn [app].
  destruct (alpha_generic w (restCountriesAlpha countryCode))
    as [err | code [err | err | [|country rest]]];
    try reflexivity;
    destruct (code =? StatusOK); cbn [negb]; try reflexivity.
  destruct (extractString country ["name"; "common"]) as [name|]; [|reflexivity].
  rewrite FetchCities_run. reflexivity.
Qed.

(** X8: the upstream calls of [CountryInfoHandler].  A request that fails
    validation makes none.  A valid one makes one GET for the validated
    code and then, only if that answer has status 200 and a first record
    with a name, one POST to the cities upstream for that name, never for
    the code. *)
Theorem info_upstream_calls (w : Upstream) (r : Request) :
  (run (CountryInfoHandler r) w).2
  = match infoCountryCode (ToUpper w) (Path r), infoLimit (QueryLimit r) with
    | inr countryCode, Some _ => infoCalls w countryCode
    | _, _ => []
    end.
Proof.
  unfold run, CountryInfoHandler, mbind, IO_bind, ask.
  destruct (infoCountryCode (ToUpper w) (Path r)) as [rejected | countryCode]; [reflexivity|].
  destruct (infoLimit (QueryLimit r)) as [limit|]; [|reflexivity].
  pose proof (FetchCountryInfo_calls w countryCode limit) as Hcalls.
  unfold run in Hcalls. unfold mbind, IO_bind.
  destruct (FetchCountryInfo countryCode limit w []) as [fetched calls].
  exact Hcalls.
Qed.

Lemma FetchCountryName_ok_iff w iso2 name :
  (run (FetchCountryName iso2) w).1 = Ok name <-> resolvedName w iso2 = Some name.
Proof.
  unfold run, FetchCountryName, resolvedName, mbind, IO_bind, call, mret, IO_ret.
  cbn [fst].
  destruct (alpha_name w (restCountriesAlpha iso2))
    as [err | code [err | err | [|entry rest]]];
    try (split; discriminate);
    destruct (code =? StatusOK); cbn [negb andb];
    try (split; discriminate).
  destruct (String.eqb (Common entry) ""); cbn [negb].
  - split; discriminate.
  - split; intros [= <-]; reflexivity.
Qed.

(** X9: [FetchCountryName] succeeds exactly when the metadata upstream
    answers 200 with a decodable, non-empty list whose first common name is
    not empty, and then returns that name; so a resolved name is never the
    empty string. *)
Theorem FetchCountryName_resolves (w : Upstream) (iso2 name : string) :
  ((run (FetchCountryName iso2) w).1 = Ok name <-> resolvedName w iso2 = Some name)
  /\ (resolvedName w iso2 = Some name -> name <> "").
Proof.
  unfold run, FetchCountryName, resolvedName, mbind, IO_bind, call, mret, IO_ret.
  cbn [fst].
  destruct (alpha_name w (restCountriesAlpha iso2))
    as [err | code [err | err | [|entry rest]]];
    try (split; [split|]; discriminate);
    destruct (code =? StatusOK); cbn [negb andb];
    try (split; [split|]; discriminate).
  destruct (String.eqb_spec (Common entry) "") as [Hempty | Hne]; cbn [negb].
  - split; [split|]; discriminate.
  - split; [split|]; intros [= <-]; auto.
Qed.

Lemma FetchCountryName_error w iso2 :
  resolvedName w iso2 = None -> exists e, (run (FetchCountryName iso2) w).1 = Err e.
Proof.
  unfold run, FetchCountryName, resolvedName, mbind, IO_bind, call, mret, IO_ret.
  cbn [fst].
  destruct (alpha_name w (restCountriesAlpha iso2))
    as [err | code [err | err | [|entry rest]]]; eauto;
    destruct (code =? StatusOK); cbn [negb andb]; eauto.
  destruct (String.eqb (Common entry) ""); cbn [negb]; [eauto | discriminate].
Qed.

Lemma FetchPopulationData_calls w iso2 startYear endYear :
  (run (FetchPopulationData iso2 startYear endYear) w).2
  = if (startYear >? endYear) && negb (endYear =? 0) then []
    else populationCalls w iso2.
Proof.
  unfold run, FetchPopulationData, populationCalls.
  destruct ((startYear >? endYear) && negb (endYear =? 0)); [reflexivity|].
  unfold mbind, IO_bind. rewrite FetchCountryName_run. cbn [app].
  destruct (resolvedName w iso2) as [name|] eqn:Hresolved.
  - apply FetchCountryName_ok_iff in Hresolved.
    rewrite Hresolved. reflexivity.
  - destruct (FetchCountryName_error w iso2 Hresolved) as [e He].
    rewrite He. reflexivity.
Qed.

(** X10: the upstream calls of [PopulationHandler].  A request that fails
    validation, or whose range is inverted, makes none.  Otherwise one GET
    resolves the code, and only a resolved, hence non-empty, name is sent in
    one POST to the population upstream. *)
Theorem population_upstream_calls (w : Upstream) (r : Request) :
  (run (PopulationHandler r) w).2
  = match populationCountryCode (ToUpper w) (Path r) with
    | inl _ => []
    | inr countryCode =>
        match populationYearRange (QueryLimit r) (current_year w) with
        | inl _ => []
        | inr (startYear, endYear) =>
            if (startYear >? endYear) && negb (endYear =? 0) then []
            else populationCalls w countryCode
        end
    end.
Proof.
  unfold run, PopulationHandler, mbind, IO_bind, ask.
  destruct (populationCountryCode (ToUpper w) (Path r)) as [rejected | countryCode]; [reflexivity|].
  unfold mbind, IO_bind, ask.
  destruct (populationYearRange (QueryLimit r) (current_year w))
    as [rejected | [startYear endYear]]; [reflexivity|].
  pose proof (FetchPopulationData_calls w countryCode startYear endYear) as Hcalls.
  unfold run in Hcalls.
  destruct (FetchPopulationData countryCode startYear endYear w []) as [fetched calls].
  exact Hcalls.
Qed.

(** ** When the country information request succeeds *)

Lemma metadataName_some w countryCode name :
  metadataName w countryCode = Some name ->
  exists country rest,
    alpha_generic w (restCountriesAlpha countryCode)
    = Response StatusOK (Decoded (country :: rest))
    /\ extractString country ["name"; "common"] = Some name.
Proof.
  unfold metadataName.
  destruct (alpha_generic w (restCountriesAlpha countryCode))
    as [err | code [err | err | [|country rest]]]; try discriminate.
  destruct (Z.eqb_spec code StatusOK) as [-> | Hne]; [|discriminate].
  intros Hname. exists country, rest. split; [reflexivity | exact Hname].
Qed.

Lemma metadataName_none w countryCode limit :
  metadataName w countryCode = None ->
  exists e, (run (FetchCountryInfo countryCode limit) w).1 = Err e.
Proof.
  unfold metadataName, run, FetchCountryInfo, mbind, IO_bind, call. cbn [fst].
  destruct (alpha_generic w (restCountriesAlpha countryCode))
    as [err | code [err | err | [|country rest]]];
    unfold mret, IO_ret; eauto;
    destruct (code =? StatusOK); cbn [negb]; eauto.
  intros ->. eauto.
Qed.

(** X11: a request with a valid code and limit is answered with a
    CountryInfo exactly when the metadata upstream yields a name for the
    code.  The response is then assembled from the first record, with the
    cities [FetchCities] returned for that name or else the placeholder;
    otherwise the reply is an error with status 404, 502 or 500. *)
Theorem info_reply (w : Upstream) (r : Request) (countryCode : string) (limit : Z) :
  infoCountryCode (ToUpper w) (Path r) = inr countryCode ->
  infoLimit (QueryLimit r) = Some limit ->
  match metadataName w countryCode with
  | Some name =>
      exists country rest,
        alpha_generic w (restCountriesAlpha countryCode)
        = Response StatusOK (Decoded (country :: rest))
        /\ (run (CountryInfoHandler r) w).1
           = ReplyJSON
               (assembled country name
                  match (run (FetchCities name limit) w).1 with
                  | Ok cities => cities
                  | _ => cityPlaceholder
                  end)
  | None =>
      exists code msg,
        (run (CountryInfoHandler r) w).1 = ReplyError code msg
        /\ (code = StatusNotFound \/ code = StatusBadGateway
            \/ code = StatusInternalServerError)
  end.
Proof.
  intros Hcode Hlimit.
  assert (Hhandler :
            (run (CountryInfoHandler r) w).1
            = match (run (FetchCountryInfo countryCode limit) w).1 with
              | Ok info => ReplyJSON info
              | Err err =>
                  classify err
                    "country not found in the database."
                    "failed to retrieve data from the external API."
                    "internal server error while fetching data."
              | Panic => ReplyPanic
              end).
  { unfold run, CountryInfoHandler, mbind, IO_bind, ask. rewrite Hcode, Hlimit.
    unfold mbind, IO_bind.
    destruct (FetchCountryInfo countryCode limit w []) as [fetched calls].
    reflexivity. }
  rewrite Hhandler.
  destruct (metadataName w countryCode) as [name|] eqn:Hname.
  - destruct (metadataName_some _ _ _ Hname) as (country & rest & Hresp & Hextract).
    exists country, rest. split; [exact Hresp|].
    rewrite (FetchCountryInfo_assembled _ _ _ _ _ _ Hresp Hextract).
    assert (0 <= limit) as Hpos.
    { destruct (infoLimit_spec _ _ Hlimit) as [[_ ->] | (_ & _ & H)]; lia. }
    pose proof (FetchCities_no_panic w name limit Hpos) as Hpanic.
    destruct (run (FetchCities name limit) w).1; try reflexivity. congruence.
  - destruct (metadataName_none w countryCode limit Hname) as [e He].
    rewrite He. unfold classify.
    repeat case_match; eexists _, _; (split; [reflexivity|]); auto.
Qed.

Lemma info_reply_witness :
  exists country rest,
    alpha_generic norwayWorld (restCountriesAlpha "NO")
    = Response StatusOK (Decoded (country :: rest))
    /\ (run (CountryInfoHandler {| Path := "/countryinfo/v1/info/no"; QueryLimit := "" |})
          norwayWorld).1
       = ReplyJSON
           (assembled country "Norway"
              match (run (FetchCities "Norway" 10) norwayWorld).1 with
              | Ok cities => cities
              | _ => cityPlaceholder
              end).
Proof.
  apply (info_reply norwayWorld
           {| Path := "/countryinfo/v1/info/no"; QueryLimit := "" |} "NO" 10).
  - reflexivity.
  - reflexivity.
Defined.

(** ** The population report *)

Lemma upstreamHistory_some w countryName history :
  upstreamHistory w countryName = Some history ->
  exists apiResponse,
    population_api w countryName = Response StatusOK (Decoded apiResponse)
    /\ Error apiResponse = false
    /\ PopulationCounts (Data apiResponse) = Some history.
Proof.
  unfold upstreamHistory.
  destruct (population_api w countryName) as [err | code [err | err | api]];
    try discriminate.
  destruct (Z.eqb_spec code StatusOK) as [-> | Hne]; [|discriminate].
  destruct (Error api) eqn:Herr; [discriminate|]. cbn [negb andb].
  intros Hcounts. exists api. auto.
Qed.

Lemma upstreamHistory_none w countryName :
  upstreamHistory w countryName = None ->
  match population_api w countryName with
  | Response code (Decoded apiResponse) =>
      code <> StatusOK \/ Error apiResponse = true
      \/ PopulationCounts (Data apiResponse) = None
  | _ => True
  end.
Proof.
  unfold upstreamHistory.
  destruct (population_api w countryName) as [err | code [err | err | api]]; auto.
  destruct (Z.eqb_spec code StatusOK) as [-> | Hne]; [|auto].
  destruct (Error api); cbn [negb andb]; auto.
Qed.

(** What [FetchPopulationData] returns, in terms of the two upstream
    answers. *)
Lemma FetchPopulationData_outcome w iso2 startYear endYear :
  (startYear >? endYear) && negb (endYear =? 0) = false ->
  match resolvedName w iso2 with
  | None => exists e, (run (FetchPopulationData iso2 startYear endYear) w).1 = Err e
  | Some countryName =>
      match upstreamHistory w countryName with
      | None => exists e, (run (FetchPopulationData iso2 startYear endYear) w).1 = Err e
      | Some history =>
          let kept := filter (fun e => inWindow startYear endYear e = true) history in
          (run (FetchPopulationData iso2 startYear endYear) w).1
          = Ok {| Mean := meanOf kept; Values := kept |}
      end
  end.
Proof.
  intros Hvalid. unfold run, FetchPopulationData. rewrite Hvalid.
  unfold mbind, IO_bind. rewrite FetchCountryName_run.
  destruct (resolvedName w iso2) as [countryName|] eqn:Hresolved.
  - apply FetchCountryName_ok_iff in Hresolved.
    rewrite Hresolved. unfold call, mret, IO_ret. cbn [fst].
    destruct (upstreamHistory w countryName) as [history|] eqn:Hhistory.
    + destruct (upstreamHistory_some _ _ _ Hhistory) as (api & -> & Herr & Hcounts).
      change (negb (StatusOK =? StatusOK)) with false. cbv iota.
      rewrite Herr, Hcounts, filterLoop_spec. reflexivity.
    + apply upstreamHistory_none in Hhistory.
      destruct (population_api w countryName) as [err | code [err | err | api]];
        try destruct (negb (code =? StatusOK)) eqn:Hstatus; eauto.
      apply negb_false_iff, Z.eqb_eq in Hstatus.
      destruct Hhistory as [Hne | [-> | ->]]; [congruence | eauto |].
      destruct (Error api); eauto.
  - destruct (FetchCountryName_error w iso2 Hresolved) as [e He].
    rewrite He. unfold mret, IO_ret. cbn [fst]. eauto.
Qed.

Lemma FetchPopulationData_ok_inv w iso2 startYear endYear report :
  (run (FetchPopulationData iso2 startYear endYear) w).1 = Ok report ->
  exists countryName history,
    resolvedName w iso2 = Some countryName
    /\ upstreamHistory w countryName = Some history
    /\ (startYear <= endYear \/ endYear = 0).
Proof.
  intros Hok.
  destruct ((startYear >? endYear) && negb (endYear =? 0)) eqn:Hvalid.
  { revert Hok. unfold run, FetchPopulationData. rewrite Hvalid. discriminate. }
  pose proof (FetchPopulationData_outcome w iso2 startYear endYear Hvalid) as Hout.
  destruct (resolvedName w iso2) as [countryName|] eqn:Hresolved;
    [| destruct Hout as [e He]; congruence].
  destruct (upstreamHistory w countryName) as [history|] eqn:Hhistory;
    [| destruct Hout as [e He]; congruence].
  exists countryName, history. split; [reflexivity|]. split; [exact Hhistory|].
  apply andb_false_iff in Hvalid as [Hgt | Hzero].
  - left. rewrite Z.gtb_ltb in Hgt. apply Z.ltb_ge in Hgt. exact Hgt.
  - right. apply negb_false_iff, Z.eqb_eq in Hzero. exact Hzero.
Qed.

Lemma filter_unbounded_window (history : list YearValue) :
  filter (fun e => inWindow 0 0 e = true) history = history.
Proof.
  induction history as [|entry history IH]; [reflexivity|].
  rewrite filter_cons_True by reflexivity. rewrite IH. reflexivity.
Qed.

(** X12: every report [FetchPopulationData] returns consists of the records
    of the upstream history that lie in the window, in upstream order,
    whatever the values are: the arithmetic of the mean has no influence on
    the list, and with both bounds 0 the list is the whole history. *)
Theorem population_values_filtered
    (w : Upstream) (iso2 : string) (startYear endYear : Z) (report : PopulationResponse) :
  (run (FetchPopulationData iso2 startYear endYear) w).1 = Ok report ->
  exists countryName history,
    resolvedName w iso2 = Some countryName
    /\ upstreamHistory w countryName = Some history
    /\ Values report = filter (fun e => inWindow startYear endYear e = true) history
    /\ (startYear = 0 -> endYear = 0 -> Values report = history)
    /\ (startYear <= endYear \/ endYear = 0).
Proof.
  intros Hok.
  destruct ((startYear >? endYear) && negb (endYear =? 0)) eqn:Hvalid.
  { revert Hok. unfold run, FetchPopulationData. rewrite Hvalid. discriminate. }
  pose proof (FetchPopulationData_outcome w iso2 startYear endYear Hvalid) as Hout.
  destruct (resolvedName w iso2) as [countryName|] eqn:Hresolved;
    [| destruct Hout as [e He]; congruence].
  destruct (upstreamHistory w countryName) as [history|] eqn:Hhistory;
    [| destruct Hout as [e He]; congruence].
  cbv zeta in Hout. rewrite Hout in Hok. injection Hok as <-.
  exists countryName, history. cbn [Values].
  split; [reflexivity|]. split; [exact Hhistory|]. split; [reflexivity|]. split.
  - intros -> ->. apply filter_unbounded_window.
  - apply andb_false_iff in Hvalid as [Hgt | Hzero].
    + left. rewrite Z.gtb_ltb in Hgt. apply Z.ltb_ge in Hgt. exact Hgt.
    + right. apply negb_false_iff, Z.eqb_eq in Hzero. exact Hzero.
Qed.

Lemma population_values_filtered_witness :
  exists countryName history,
    resolvedName indiaWorld "IN" = Some countryName
    /\ upstreamHistory indiaWorld countryName = Some history
    /\ [ {| Year := 2015; Value := 1310152403 |};
         {| Year := 2016; Value := 1324509589 |} ]
       = filter (fun e => inWindow 2015 0 e = true) history
    /\ (2015 = 0 -> 0 = 0 ->
        [ {| Year := 2015; Value := 1310152403 |};
          {| Year := 2016; Value := 1324509589 |} ] = history)
    /\ (2015 <= 0 \/ 0 = 0).
Proof.
  apply (population_values_filtered indiaWorld "IN" 2015 0
           {| Mean := 1317330996;
              Values := [ {| Year := 2015; Value := 1310152403 |};
                          {| Year := 2016; Value := 1324509589 |} ] |}).
  vm_compute. reflexivity.
Defined.

Lemma PopulationHandler_fetches w r countryCode startYear endYear :
  populationCountryCode (ToUpper w) (Path r) = inr countryCode ->
  populationYearRange (QueryLimit r) (current_year w) = inr (startYear, endYear) ->
  (run (PopulationHandler r) w).1
  = match (run (FetchPopulationData countryCode startYear endYear) w).1 with
    | Ok data => ReplyJSON data
    | Err err =>
        classify err
          "Population data not found for the given country or year range."
          "Failed to retrieve data from the external API."
          "Internal server error while fetching population data."
    | Panic => ReplyPanic
    end.
Proof.
  intros Hcode Hrange. unfold run, PopulationHandler, mbind, IO_bind, ask. rewrite Hcode.
  unfold mbind, IO_bind, ask. rewrite Hrange.
  destruct (FetchPopulationData countryCode startYear endYear w []) as [fetched calls].
  reflexivity.
Qed.

Lemma filter_none (startYear endYear : Z) (history : list YearValue) :
  Forall (fun entry => inWindow startYear endYear entry = false) history ->
  filter (fun e => inWindow startYear endYear e = true) history = [].
Proof.
  induction 1 as [|entry history Hentry _ IH]; [reflexivity|].
  rewrite filter_cons_False by congruence. exact IH.
Qed.

(** X13: a window that holds no record of the history, and in particular an
    empty (but present) history, is not an error: the endpoint answers 200
    with mean 0 and no values.  Only a missing history is reported as a
    failure. *)
Theorem population_empty_window
    (w : Upstream) (r : Request) (countryCode : string) (startYear endYear : Z)
    (countryName : string) (history : list YearValue) :
  populationCountryCode (ToUpper w) (Path r) = inr countryCode ->
  populationYearRange (QueryLimit r) (current_year w) = inr (startYear, endYear) ->
  startYear <= endYear \/ endYear = 0 ->
  resolvedName w countryCode = Some countryName ->
  upstreamHistory w countryName = Some history ->
  Forall (fun entry => inWindow startYear endYear entry = false) history ->
  (run (PopulationHandler r) w).1 = ReplyJSON {| Mean := 0; Values := [] |}.
Proof.
  intros Hcode Hrange Hvalid Hresolved Hhistory Hnone.
  rewrite (PopulationHandler_fetches _ _ _ _ _ Hcode Hrange).
  pose proof (FetchPopulationData_outcome w countryCode startYear endYear
                (valid_range_passes _ _ Hvalid)) as Hout.
  rewrite Hresolved, Hhistory in Hout. cbv zeta in Hout.
  rewrite Hout, (filter_none _ _ _ Hnone). reflexivity.
Qed.

Lemma population_empty_window_witness :
  (run (PopulationHandler {| Path := "/countryinfo/v1/population/in";
                             QueryLimit := "1900-1950" |}) indiaWorld).1
  = ReplyJSON {| Mean := 0; Values := [] |}.
Proof.
  apply (population_empty_window indiaWorld
           {| Path := "/countryinfo/v1/population/in"; QueryLimit := "1900-1950" |}
           "IN" 1900 1950 "India" indiaHistory).
  - reflexivity.
  - reflexivity.
  - left. lia.
  - reflexivity.
  - reflexivity.
  - unfold indiaHistory. repeat constructor.
Defined.

Lemma meanOf_exact (kept : list YearValue) :
  kept <> [] ->
  0 <= sumValues kept <= GoInt.max_int ->
  GoInt.len kept <= GoInt.max_int ->
  meanOf kept = sumValues kept / GoInt.len kept.
Proof.
  intros Hne Hsum Hlen. unfold meanOf.
  assert (Hpos : 0 < GoInt.len kept).
  { unfold GoInt.len. destruct kept; [congruence | simpl; lia]. }
  assert (Hrange : forall z, 0 <= z <= GoInt.max_int -> GoInt.in_range z = true).
  { intros z Hz. unfold GoInt.in_range, GoInt.min_int, GoInt.max_int, GoInt.bits in *.
    apply andb_true_intro. split; apply Z.leb_le; lia. }
  rewrite (wrap_in_range (sumValues kept)), (wrap_in_range (GoInt.len kept))
    by (apply Hrange; lia).
  replace (GoInt.len kept >? 0) with true
    by (symmetry; rewrite Z.gtb_ltb; apply Z.ltb_lt; exact Hpos).
  unfold GoInt.div. rewrite Z.quot_div_nonneg by lia.
  apply wrap_in_range, Hrange. split.
  - apply Z.div_pos; lia.
  - pose proof (Z.div_le_compat_l (sumValues kept) 1 (GoInt.len kept)) as Hdiv.
    rewrite Z.div_1_r in Hdiv. lia.
Qed.

Lemma sumValues_between (kept : list YearValue) (lo hi : Z) :
  Forall (fun entry => lo <= Value entry <= hi) kept ->
  GoInt.len kept * lo <= sumValues kept <= GoInt.len kept * hi.
Proof.
  unfold GoInt.len.
  induction 1 as [|entry kept Hentry _ IH]; [simpl; lia|].
  cbn [sumValues foldr length]. fold (sumValues kept).
  rewrite Nat2Z.inj_succ. lia.
Qed.

(** X14: when at least one record is kept, the values are non-negative and
    their sum fits an [int], the mean lies between the smallest and the
    largest kept value: between any two bounds that hold for every kept
    value. *)
Theorem population_mean_between
    (w : Upstream) (iso2 : string) (startYear endYear : Z)
    (countryName : string) (history : list YearValue) (lo hi : Z) :
  startYear <= endYear \/ endYear = 0 ->
  resolvedName w iso2 = Some countryName ->
  upstreamHistory w countryName = Some history ->
  filter (fun e => inWindow startYear endYear e = true) history <> [] ->
  Forall (fun entry => lo <= Value entry <= hi)
         (filter (fun e => inWindow startYear endYear e = true) history) ->
  0 <= lo ->
  GoInt.len history <= GoInt.max_int ->
  sumValues (filter (fun e => inWindow startYear endYear e = true) history)
    <= GoInt.max_int ->
  exists report,
    (run (FetchPopulationData iso2 startYear endYear) w).1 = Ok report
    /\ lo <= Mean report <= hi.
Proof.
  intros Hvalid Hresolved Hhistory Hne Hbounds Hlo Hlen Hsum.
  pose proof (FetchPopulationData_outcome w iso2 startYear endYear
                (valid_range_passes _ _ Hvalid)) as Hout.
  rewrite Hresolved, Hhistory in Hout. cbv zeta in Hout.
  set (kept := filter (fun e => inWindow startYear endYear e = true) history) in *.
  eexists. split; [exact Hout|]. cbn [Mean].
  pose proof (sumValues_between kept lo hi Hbounds) as Hbetween.
  assert (Hpos : 0 < GoInt.len kept).
  { unfold GoInt.len. destruct kept; [congruence | simpl; lia]. }
  assert (Hkept_len : GoInt.len kept <= GoInt.max_int).
  { pose proof (length_filter (fun e => inWindow startYear endYear e = true) history).
    fold kept in H. unfold GoInt.len in *. lia. }
  rewrite meanOf_exact; [| exact Hne | split; [nia | exact Hsum] | exact Hkept_len].
  split.
  - apply Z.div_le_lower_bound; lia.
  - apply Z.div_le_upper_bound; lia.
Qed.

Lemma population_mean_between_witness :
  exists report,
    (run (FetchPopulationData "IN" 2010 2015) indiaWorld).1 = Ok report
    /\ 1234281170 <= Mean report <= 1310152403.
Proof.
  apply (population_mean_between indiaWorld "IN" 2010 2015 "India" indiaHistory).
  - left. lia.
  - reflexivity.
  - reflexivity.
  - vm_compute. discriminate.
  - assert (filter (fun e => inWindow 2010 2015 e = true) indiaHistory
            = [ {| Year := 2010; Value := 1234281170 |};
                {| Year := 2011; Value := 1250288729 |};
                {| Year := 2012; Value := 1265782790 |};
                {| Year := 2013; Value := 1280846129 |};
                {| Year := 2014; Value := 1295604184 |};
                {| Year := 2015; Value := 1310152403 |} ]) as ->
      by (vm_compute; reflexivity).
    repeat (apply List.Forall_cons; [simpl; lia|]). apply List.Forall_nil.
  - lia.
  - vm_compute. discriminate.
  - vm_compute. discriminate.
Defined.

(** ** When the handlers answer 404 *)

Lemma Forall_quiet_head x l : Forall quiet (x :: l) -> Contains x "not found" = false.
Proof. intros H. inversion H; subst. assumption. Qed.

Ltac close_quiet :=
  unfold quiet, notFound in *; strip_message;
  first [ reflexivity | assumption | eapply Forall_quiet_head; eassumption ].

Lemma classify_404_iff {A} err nf bg internal :
  status (@classify A err nf bg internal) = Some StatusNotFound
  <-> Contains err notFound = true.
Proof.
  unfold classify, notFound.
  destruct (Contains err "not found"); [split; reflexivity|].
  destruct (Contains err "API request failed"); split; discriminate.
Qed.

Lemma FetchCountryName_quiet w iso2 e :
  quietUpstream w -> quiet iso2 ->
  (run (FetchCountryName iso2) w).1 = Err e -> quiet e.
Proof.
  intros (_ & Hnames & _) Hiso2. specialize (Hnames (restCountriesAlpha iso2)).
  unfold run, FetchCountryName, mbind, IO_bind, call, mret, IO_ret. cbn [fst].
  destruct (alpha_name w (restCountriesAlpha iso2))
    as [err | code [err | err | [|entry rest]]];
    cbn [httpTexts bodyTexts] in Hnames;
    try destruct (negb (code =? StatusOK));
    try (intros [= <-]; close_quiet).
  destruct (String.eqb (Common entry) ""); [intros [= <-]; close_quiet | discriminate].
Qed.

Lemma FetchCountryName_name_quiet w iso2 countryName :
  quietUpstream w ->
  (run (FetchCountryName iso2) w).1 = Ok countryName -> quiet countryName.
Proof.
  intros (_ & Hnames & _). specialize (Hnames (restCountriesAlpha iso2)).
  unfold run, FetchCountryName, mbind, IO_bind, call, mret, IO_ret. cbn [fst].
  destruct (alpha_name w (restCountriesAlpha iso2))
    as [err | code [err | err | [|entry rest]]];
    try destruct (negb (code =? StatusOK)); try discriminate.
  cbn in Hnames.
  destruct (String.eqb (Common entry) ""); [discriminate|].
  intros [= <-]. inversion Hnames; subst. assumption.
Qed.

Lemma FetchPopulationData_quiet w iso2 startYear endYear e :
  quietUpstream w -> quiet iso2 ->
  (run (FetchPopulationData iso2 startYear endYear) w).1 = Err e -> quiet e.
Proof.
  intros Hw Hiso2.
  unfold run, FetchPopulationData.
  destruct ((startYear >? endYear) && negb (endYear =? 0)).
  { unfold mret, IO_ret. intros [= <-].
    destruct (invalidYearRange_unclassified startYear endYear) as [Hnf _].
    exact Hnf. }
  unfold mbind, IO_bind. rewrite FetchCountryName_run.
  destruct (run (FetchCountryName iso2) w).1 as [countryName | err |] eqn:Hname.
  - pose proof (FetchCountryName_name_quiet _ _ _ Hw Hname) as Hquiet.
    destruct Hw as (_ & _ & _ & Hpop). specialize (Hpop countryName).
    unfold call, mret, IO_ret. cbn [fst].
    destruct (population_api w countryName) as [err | code [err | err | api]];
      cbn [httpTexts bodyTexts] in Hpop;
      try destruct (negb (code =? StatusOK));
      try (intros [= <-]; close_quiet).
    destruct (Error api); [intros [= <-]; close_quiet|].
    destruct (PopulationCounts (Data api)) as [populationData|];
      [| intros [= <-]; close_quiet].
    destruct (filterLoop startYear endYear populationData) as [[kept total] count].
    discriminate.
  - pose proof (FetchCountryName_quiet _ _ _ Hw Hiso2 Hname) as Hquiet.
    unfold mret, IO_ret. intros [= <-]. close_quiet.
  - discriminate.
Qed.

(** X15: unless a text supplied by an upstream (an error text, the country's
    common name, the population upstream's [msg]) itself contains
    "not found", [PopulationHandler] never answers 404: none of the messages
    of [FetchCountryName] and [FetchPopulationData] contains that
    substring. *)
Theorem population_never_404 (w : Upstream) (r : Request) :
  quietUpstream w ->
  status (run (PopulationHandler r) w).1 <> Some StatusNotFound.
Proof.
  intros Hw.
  destruct (populationCountryCode (ToUpper w) (Path r)) as [rejected | countryCode] eqn:Hcode.
  { pose proof (populationCountryCode_rejects _ _ _ Hcode) as Hstatus.
    unfold run, PopulationHandler, mbind, IO_bind, ask. rewrite Hcode. unfold mret, IO_ret. cbn [fst].
    rewrite Hstatus. discriminate. }
  pose proof (populationCountryCode_valid _ _ _ Hcode) as Hmatch.
  destruct (populationYearRange (QueryLimit r) (current_year w))
    as [rejected | [startYear endYear]] eqn:Hrange.
  { pose proof (populationYearRange_rejects _ _ _ Hrange) as Hstatus.
    unfold run, PopulationHandler, mbind, IO_bind, ask. rewrite Hcode. unfold mbind, IO_bind, ask.
    rewrite Hrange. unfold mret, IO_ret. cbn [fst]. rewrite Hstatus. discriminate. }
  rewrite (PopulationHandler_fetches _ _ _ _ _ Hcode Hrange).
  destruct (run (FetchPopulationData countryCode startYear endYear) w).1
    as [data | err |] eqn:Hfetch; try discriminate.
  intros H404. apply classify_404_iff in H404.
  pose proof (FetchPopulationData_quiet w countryCode startYear endYear err Hw) as Hquiet.
  unfold quiet in Hquiet. rewrite Hquiet in H404; [discriminate | | exact Hfetch].
  apply ISO2_unclassified. exact Hmatch.
Qed.

Lemma population_never_404_witness :
  status (run (PopulationHandler {| Path := "/countryinfo/v1/population/no";
                                    QueryLimit := "" |}) emptyPopulationWorld).1
  <> Some StatusNotFound.
Proof.
  apply (population_never_404 emptyPopulationWorld).
  repeat split; intros ?; repeat constructor.
Defined.

Lemma FetchCountryInfo_nameless w countryCode limit country rest :
  alpha_generic w (restCountriesAlpha countryCode)
  = Response StatusOK (Decoded (country :: rest)) ->
  extractString country ["name"; "common"] = None ->
  (run (FetchCountryInfo countryCode limit) w).1 = Err "country name not found".
Proof.
  intros Hresp Hname.
  unfold run, FetchCountryInfo, mbind, IO_bind, call. rewrite Hresp.
  change (negb (StatusOK =? StatusOK)) with false. cbv iota.
  rewrite Hname. reflexivity.
Qed.

Lemma FetchCountryInfo_quiet_or_nameless w countryCode limit e :
  quietUpstream w -> quiet countryCode ->
  (run (FetchCountryInfo countryCode limit) w).1 = Err e ->
  quiet e
  \/ exists country rest,
       alpha_generic w (restCountriesAlpha countryCode)
       = Response StatusOK (Decoded (country :: rest))
       /\ extractString country ["name"; "common"] = None.
Proof.
  intros (Hgeneric & _) Hcode. specialize (Hgeneric (restCountriesAlpha countryCode)).
  unfold run, FetchCountryInfo, mbind, IO_bind, call. cbn [fst].
  destruct (alpha_generic w (restCountriesAlpha countryCode))
    as [err | code [err | err | [|country rest]]];
    cbn [httpTexts bodyTexts] in Hgeneric;
    try destruct (Z.eqb_spec code StatusOK) as [-> | Hne]; cbn [negb];
    unfold mret, IO_ret; try (intros [= <-]; left; close_quiet).
  destruct (extractString country ["name"; "common"]) as [name|] eqn:Hname.
  - rewrite FetchCities_run. cbn [fst].
    destruct (run (FetchCities name limit) w).1; discriminate.
  - intros _. right. exists country, rest. split; [reflexivity | exact Hname].
Qed.

(** X16: with upstream texts free of "not found", [CountryInfoHandler]
    answers a valid request with 404 exactly when the metadata upstream
    answers 200 with a non-empty list whose first record has no name.  An
    empty list, a status other than 200 (the upstream's own 404 included)
    and a transport or decode error all give another status. *)
Theorem info_404_iff
    (w : Upstream) (r : Request) (countryCode : string) (limit : Z) :
  quietUpstream w ->
  infoCountryCode (ToUpper w) (Path r) = inr countryCode ->
  infoLimit (QueryLimit r) = Some limit ->
  (status (run (CountryInfoHandler r) w).1 = Some StatusNotFound)
  <-> (exists country rest,
          alpha_generic w (restCountriesAlpha countryCode)
          = Response StatusOK (Decoded (country :: rest))
          /\ extractString country ["name"; "common"] = None).
Proof.
  intros Hw Hcode Hlimit.
  pose proof (proj1 (ISO2_unclassified _ (infoCountryCode_valid _ _ _ Hcode))) as Hquiet.
  assert (Hhandler :
            (run (CountryInfoHandler r) w).1
            = match (run (FetchCountryInfo countryCode limit) w).1 with
              | Ok info => ReplyJSON info
              | Err err =>
                  classify err
                    "country not found in the database."
                    "failed to retrieve data from the external API."
                    "internal server error while fetching data."
              | Panic => ReplyPanic
              end).
  { unfold run, CountryInfoHandler, mbind, IO_bind, ask. rewrite Hcode, Hlimit.
    unfold mbind, IO_bind.
    destruct (FetchCountryInfo countryCode limit w []) as [fetched calls].
    reflexivity. }
  rewrite Hhandler. clear Hhandler. split.
  - destruct (run (FetchCountryInfo countryCode limit) w).1 as [info | err |] eqn:Hfetch;
      try discriminate.
    intros H404. apply classify_404_iff in H404.
    destruct (FetchCountryInfo_quiet_or_nameless w countryCode limit err Hw Hquiet Hfetch)
      as [Herr | Hnameless]; [|exact Hnameless].
    unfold quiet in Herr. congruence.
  - intros (country & rest & Hresp & Hname).
    rewrite (FetchCountryInfo_nameless _ _ _ _ _ Hresp Hname). reflexivity.
Qed.

(** A world whose metadata upstream answers with one record without name. *)
Lemma info_404_iff_witness :
  status (run (CountryInfoHandler {| Path := "/countryinfo/v1/info/no"; QueryLimit := "" |})
            (infoWorld ∅ (cities_api unreachable "Norway"))).1
  = Some StatusNotFound.
Proof.
  apply (info_404_iff (infoWorld ∅ (cities_api unreachable "Norway"))
           {| Path := "/countryinfo/v1/info/no"; QueryLimit := "" |} "NO" 10).
  - repeat split; intros ?; repeat constructor.
  - reflexivity.
  - reflexivity.
  - exists ∅, []. split; reflexivity.
Defined.

(** ** When the population request succeeds *)

(** X17: a population request with a valid code and an accepted limit
    parameter is answered with a report exactly when the range is not
    inverted, the code resolves to a name and the population upstream holds
    a history for that name. *)
Theorem population_reply_iff
    (w : Upstream) (r : Request) (countryCode : string) (startYear endYear : Z) :
  populationCountryCode (ToUpper w) (Path r) = inr countryCode ->
  populationYearRange (QueryLimit r) (current_year w) = inr (startYear, endYear) ->
  (exists data, (run (PopulationHandler r) w).1 = ReplyJSON data)
  <-> ((startYear <= endYear \/ endYear = 0)
       /\ exists countryName history,
            resolvedName w countryCode = Some countryName
            /\ upstreamHistory w countryName = Some history).
Proof.
  intros Hcode Hrange.
  rewrite (PopulationHandler_fetches _ _ _ _ _ Hcode Hrange).
  split.
  - intros [data Hdata].
    destruct (run (FetchPopulationData countryCode startYear endYear) w).1
      as [report | err |] eqn:Hfetch.
    + destruct (FetchPopulationData_ok_inv w countryCode startYear endYear report Hfetch)
        as (countryName & history & Hresolved & Hhistory & Hvalid).
      split; [exact Hvalid|]. exists countryName, history. auto.
    + exfalso. revert Hdata. unfold classify. repeat case_match; discriminate.
    + discriminate.
  - intros (Hvalid & countryName & history & Hresolved & Hhistory).
    pose proof (FetchPopulationData_outcome w countryCode startYear endYear
                  (valid_range_passes _ _ Hvalid)) as Hout.
    rewrite Hresolved, Hhistory in Hout. cbv zeta in Hout. rewrite Hout.
    eexists. reflexivity.
Qed.

Lemma population_reply_iff_witness :
  exists data,
    (run (PopulationHandler {| Path := "/countryinfo/v1/population/in";
                               QueryLimit := "2010-2015" |}) indiaWorld).1
    = ReplyJSON data.
Proof.
  apply (population_reply_iff indiaWorld
           {| Path := "/countryinfo/v1/population/in"; QueryLimit := "2010-2015" |}
           "IN" 2010 2015).
  - reflexivity.
  - reflexivity.
  - split; [left; lia|]. exists "India", indiaHistory. split; reflexivity.
Defined.

(** ** Extraction from a country record *)





(** X19: the languages of the response are the string-valued members of the
    record's [languages] object, under the same keys: every other member is
    left out, and an object of strings is copied member by member. *)
Theorem extractLanguages_lookup
    (country : gmap string value) (langs : gmap string value) :
  country !! "languages" = Some (VObject langs) ->
  (forall abbr, extractLanguages country !! abbr = langs !! abbr ≫= as_string)
  /\ (forall names : gmap string string,
         langs = VString <$> names -> extractLanguages country = names).
Proof.
  intros Hfield. unfold extractLanguages. rewrite Hfield. split.
  - intros abbr. apply lookup_omap.
  - intros names ->. apply map_eq. intros abbr.
    rewrite lookup_omap, lookup_fmap. destruct (names !! abbr); reflexivity.
Qed.

Lemma extractLanguages_lookup_witness :
  extractLanguages norwayRecord !! "nno" = Some "Norwegian Nynorsk".
Proof.
  rewrite (proj1 (extractLanguages_lookup norwayRecord
                    (list_to_map [("nno", VString "Norwegian Nynorsk");
                                  ("smi", VString "Sami")])
                    eq_refl) "nno").
  reflexivity.
Defined.

(** X20: for a record shaped like the metadata upstream's, with [name] an
    object holding the string [common] and no string under [name], and
    [flags] an object holding the string [svg] and no string under [flags],
    the response's name is [name.common] and its flag is [flags.svg]. *)
Theorem well_shaped_record
    (w : Upstream) (countryCode : string) (limit : Z)
    (country : gmap string value) (rest : list (gmap string value))
    (nameObject flagsObject : gmap string value) (common svg : string) :
  0 <= limit ->
  alpha_generic w (restCountriesAlpha countryCode)
  = Response StatusOK (Decoded (country :: rest)) ->
  country !! "name" = Some (VObject nameObject) ->
  nameObject !! "name" ≫= as_string = None ->
  nameObject !! "common" = Some (VString common) ->
  country !! "flags" = Some (VObject flagsObject) ->
  flagsObject !! "flags" ≫= as_string = None ->
  flagsObject !! "svg" = Some (VString svg) ->
  exists info,
    (run (FetchCountryInfo countryCode limit) w).1 = Ok info
    /\ Name info = common
    /\ Flag info = svg.
Proof.
  intros Hlimit Hresp Hname Hname_name Hcommon Hflags Hflags_flags Hsvg.
  assert (Hextract : extractString country ["name"; "common"] = Some common).
  { unfold extractString. cbn [extractStringFrom]. rewrite Hname.
    cbn [extractNested]. rewrite Hname_name, Hcommon. reflexivity. }
  destruct (FetchCountryInfo_succeeds _ _ _ _ _ _ Hlimit Hresp Hextract) as [cities Hok].
  exists (assembled country common cities).
  split; [exact Hok|]. split; [reflexivity|].
  cbn [assembled Flag]. unfold extractString. cbn [extractStringFrom]. rewrite Hflags.
  cbn [extractNested]. rewrite Hflags_flags, Hsvg. reflexivity.
Qed.

Lemma well_shaped_record_witness :
  exists info,
    (run (FetchCountryInfo "NO" 5) norwayWorld).1 = Ok info
    /\ Name info = "Norway"
    /\ Flag info = "https://flagcdn.com/no.svg".
Proof.
  apply (well_shaped_record norwayWorld "NO" 5 norwayRecord []
           (list_to_map [("common", VString "Norway")])
           (list_to_map [("svg", VString "https://flagcdn.com/no.svg")])).
  - lia.
  - reflexivity.
  - reflexivity.
  - reflexivity.
  - reflexivity.
  - reflexivity.
  - reflexivity.
  - reflexivity.
Defined.

(** ** The mean on histories of either sign *)

Lemma meanOf_quot (kept : list YearValue) :
  kept <> [] ->
  GoInt.min_int <= sumValues kept <= GoInt.max_int ->
  GoInt.len kept <= GoInt.max_int ->
  meanOf kept = Z.quot (sumValues kept) (GoInt.len kept).
Proof.
  intros Hne Hsum Hlen. unfold meanOf.
  assert (Hpos : 0 < GoInt.len kept).
  { unfold GoInt.len. destruct kept; [congruence | simpl; lia]. }
  assert (Hrange : forall z, GoInt.min_int <= z <= GoInt.max_int -> GoInt.in_range z = true).
  { intros z Hz. unfold GoInt.in_range. apply andb_true_intro. split; apply Z.leb_le; lia. }
  assert (Hmin : GoInt.min_int <= 0 <= GoInt.max_int)
    by (unfold GoInt.min_int, GoInt.max_int, GoInt.bits; lia).
  rewrite (wrap_in_range (sumValues kept)), (wrap_in_range (GoInt.len kept))
    by (apply Hrange; lia).
  replace (GoInt.len kept >? 0) with true
    by (symmetry; rewrite Z.gtb_ltb; apply Z.ltb_lt; exact Hpos).
  unfold GoInt.div. apply wrap_in_range, Hrange.
  destruct (Z.le_gt_cases 0 (sumValues kept)) as [Hnonneg | Hneg].
  - rewrite Z.quot_div_nonneg by lia.
    pose proof (Z.div_pos (sumValues kept) (GoInt.len kept) Hnonneg Hpos).
    pose proof (Z.div_le_compat_l (sumValues kept) 1 (GoInt.len kept)) as Hdiv.
    rewrite Z.div_1_r in Hdiv. lia.
  - replace (sumValues kept) with (- (- sumValues kept)) by lia.
    rewrite Z.quot_opp_l by lia. rewrite Z.quot_div_nonneg by lia.
    pose proof (Z.div_pos (- sumValues kept) (GoInt.len kept)).
    pose proof (Z.div_le_compat_l (- sumValues kept) 1 (GoInt.len kept)) as Hdiv.
    rewrite Z.div_1_r in Hdiv. lia.
Qed.

(** X21: whenever the sum of the kept values fits an [int], of whatever
    sign, the mean is the quotient of sum and count truncated toward zero,
    as Go's [/] computes it; for a negative sum this is not the floor. *)
Theorem population_mean_truncates
    (w : Upstream) (iso2 : string) (startYear endYear : Z)
    (countryName : string) (history : list YearValue) :
  startYear <= endYear \/ endYear = 0 ->
  resolvedName w iso2 = Some countryName ->
  upstreamHistory w countryName = Some history ->
  filter (fun e => inWindow startYear endYear e = true) history <> [] ->
  GoInt.min_int
    <= sumValues (filter (fun e => inWindow startYear endYear e = true) history)
    <= GoInt.max_int ->
  GoInt.len history <= GoInt.max_int ->
  exists report,
    (run (FetchPopulationData iso2 startYear endYear) w).1 = Ok report
    /\ Mean report
       = Z.quot (sumValues (Values report)) (GoInt.len (Values report)).
Proof.
  intros Hvalid Hresolved Hhistory Hne Hsum Hlen.
  pose proof (FetchPopulationData_outcome w iso2 startYear endYear
                (valid_range_passes _ _ Hvalid)) as Hout.
  rewrite Hresolved, Hhistory in Hout. cbv zeta in Hout.
  eexists. split; [exact Hout|]. cbn [Mean Values].
  apply meanOf_quot; [exact Hne | exact Hsum |].
  pose proof (length_filter (fun e => inWindow startYear endYear e = true) history).
  unfold GoInt.len in *. lia.
Qed.

Lemma population_mean_truncates_witness :
  exists report,
    (run (FetchPopulationData "NO" 0 0) signedWorld).1 = Ok report
    /\ Mean report = Z.quot (sumValues (Values report)) (GoInt.len (Values report)).
Proof.
  apply (population_mean_truncates signedWorld "NO" 0 0 "Norway" signedHistory).
  - right. reflexivity.
  - reflexivity.
  - reflexivity.
  - vm_compute. discriminate.
  - vm_compute. split; discriminate.
  - vm_compute. discriminate.
Defined.

Example signed_mean :
  (run (FetchPopulationData "NO" 0 0) signedWorld).1
  = Ok {| Mean := -1; Values := signedHistory |}
  /\ sumValues signedHistory / GoInt.len signedHistory = -2.
Proof. split; vm_compute; reflexivity. Qed.

(** ** The status codes of the replies *)

Lemma FetchPopulationData_no_panic w iso2 startYear endYear :
  (run (FetchPopulationData iso2 startYear endYear) w).1 <> Panic.
Proof.
  destruct ((startYear >? endYear) && negb (endYear =? 0)) eqn:Hvalid.
  { unfold run, FetchPopulationData. rewrite Hvalid. discriminate. }
  pose proof (FetchPopulationData_outcome w iso2 startYear endYear Hvalid) as Hout.
  destruct (resolvedName w iso2) as [countryName|];
    [| destruct Hout as [e ->]; discriminate].
  destruct (upstreamHistory w countryName) as [history|];
    [| destruct Hout as [e ->]; discriminate].
  cbv zeta in Hout. rewrite Hout. discriminate.
Qed.

Lemma classify_codes {A} err nf bg internal :
  exists code,
    status (@classify A err nf bg internal) = Some code
    /\ In code [StatusNotFound; StatusBadGateway; StatusInternalServerError].
Proof.
  unfold classify. repeat case_match; eexists; (split; [reflexivity|]); simpl; tauto.
Qed.

(** X22: every reply of [CountryInfoHandler] and of [PopulationHandler]
    carries one of the statuses 200, 400, 404, 502 and 500, whatever the
    request and the upstreams do, and [StatusHandler] always replies 200. *)
Theorem reply_status_codes (w : Upstream) (r : Request) :
  (exists code,
      status (run (CountryInfoHandler r) w).1 = Some code
      /\ In code [StatusOK; StatusBadRequest; StatusNotFound;
                  StatusBadGateway; StatusInternalServerError])
  /\ (exists code,
         status (run (PopulationHandler r) w).1 = Some code
         /\ In code [StatusOK; StatusBadRequest; StatusNotFound;
                     StatusBadGateway; StatusInternalServerError])
  /\ status (run (StatusHandler r) w).1 = Some StatusOK.
Proof.
  split; [|split].
  - unfold run, CountryInfoHandler, mbind, IO_bind, ask.
    destruct (infoCountryCode (ToUpper w) (Path r)) as [rejected | countryCode] eqn:Hcode.
    { pose proof (infoCountryCode_rejects _ _ _ Hcode) as Hstatus.
      unfold mret, IO_ret. cbn [fst].
      exists StatusBadRequest. split; [exact Hstatus | simpl; tauto]. }
    destruct (infoLimit (QueryLimit r)) as [limit|] eqn:Hlimit.
    + assert (0 <= limit) as Hpos.
      { destruct (infoLimit_spec _ _ Hlimit) as [[_ ->] | (_ & _ & H)]; lia. }
      pose proof (FetchCountryInfo_no_panic w countryCode limit Hpos) as Hpanic.
      unfold run in Hpanic. unfold mbind, IO_bind.
      destruct (FetchCountryInfo countryCode limit w []) as [[info | err |] calls];
        unfold mret, IO_ret; cbn [fst] in *.
      * exists StatusOK. split; [reflexivity | simpl; tauto].
      * destruct (classify_codes (A:=CountryInfoResponse) err
                    "country not found in the database."
                    "failed to retrieve data from the external API."
                    "internal server error while fetching data.")
          as (code & Hstatus & Hin).
        exists code. split; [exact Hstatus | simpl in *; tauto].
      * congruence.
    + unfold mret, IO_ret. cbn [fst].
      exists StatusBadRequest. split; [reflexivity | simpl; tauto].
  - destruct (populationCountryCode (ToUpper w) (Path r)) as [rejected | countryCode] eqn:Hcode.
    { pose proof (populationCountryCode_rejects _ _ _ Hcode) as Hstatus.
      unfold run, PopulationHandler, mbind, IO_bind, ask. rewrite Hcode. unfold mret, IO_ret. cbn [fst].
      exists StatusBadRequest. split; [exact Hstatus | simpl; tauto]. }
    destruct (populationYearRange (QueryLimit r) (current_year w))
      as [rejected | [startYear endYear]] eqn:Hrange.
    { pose proof (populationYearRange_rejects _ _ _ Hrange) as Hstatus.
      unfold run, PopulationHandler, mbind, IO_bind, ask. rewrite Hcode. unfold mbind, IO_bind, ask.
      rewrite Hrange. unfold mret, IO_ret. cbn [fst].
      exists StatusBadRequest. split; [exact Hstatus | simpl; tauto]. }
    rewrite (PopulationHandler_fetches _ _ _ _ _ Hcode Hrange).
    pose proof (FetchPopulationData_no_panic w countryCode startYear endYear) as Hpanic.
    destruct (run (FetchPopulationData countryCode startYear endYear) w).1
      as [data | err |].
    + exists StatusOK. split; [reflexivity | simpl; tauto].
    + destruct (classify_codes (A:=PopulationResponse) err
                  "Population data not found for the given country or year range."
                  "Failed to retrieve data from the external API."
                  "Internal server error while fetching population data.")
        as (code & Hstatus & Hin).
      exists code. split; [exact Hstatus | simpl in *; tauto].
    + congruence.
  - reflexivity.
Qed.
